(** * worldping-gw: the request-processing pipeline of package [api]

    A shallow embedding of [api/middleware.go] and [api/elasticsearch.go]
    (the latter also holds the metrics ingestion handlers), together with
    the few functions of Go's standard library on which the handlers'
    results depend ([strings], [path], [strconv], [encoding/base64],
    [time]).  Go strings are byte strings and are modelled by [string]. *)

From Stdlib Require Import ZArith Ascii String List Bool Lia.
From stdpp Require Import base tactics option list strings gmap.
Import ListNotations.

Local Open Scope string_scope.

(** ** Go's [strings] package (the functions the gateway calls) *)
Module strings.

(** [strings.HasPrefix]. *)
Definition HasPrefix (s prefix : string) : bool := String.prefix prefix s.

(** [strings.TrimPrefix]: [s] without the leading [prefix], or [s] itself. *)
Definition TrimPrefix (s prefix : string) : string :=
  if HasPrefix s prefix
  then String.substring (String.length prefix)
                        (String.length s - String.length prefix) s
  else s.

(** [strings.Index]: offset of the first instance of [sep] in [s]. *)
Fixpoint Index (s sep : string) : option nat :=
  if String.prefix sep s then Some 0
  else match s with
       | EmptyString => None
       | String _ s' => S <$> Index s' sep
       end.

(** The loop of [genSplit]: at most [k] cuts, the rest goes in the last
    element. *)
Fixpoint splitLoop (k : nat) (s sep : string) : list string :=
  match k with
  | 0 => [s]
  | S k' =>
      match Index s sep with
      | None => [s]
      | Some m =>
          String.substring 0 m s ::
          splitLoop k'
            (String.substring (m + String.length sep)
               (String.length s - (m + String.length sep)) s) sep
      end
  end.

(** [strings.SplitN s sep n] for a non-empty [sep] and [0 <= n], which is
    how the gateway calls it ([" "] and [":"], [n = 2]). *)
Definition SplitN (s sep : string) (n : nat) : list string :=
  match n with
  | 0 => []
  | S _ =>
      let n := Nat.min n (String.length s + 1) in
      splitLoop (n - 1) s sep
  end.

(** The loop of [strings.Replace] for a non-empty [old]: [limit] is the
    number of replacements still allowed ([None]: no limit) and [skip]
    the number of bytes of a matched [old] still to drop. *)
Fixpoint replaceLoop (old new : string) (limit : option nat) (skip : nat)
    (s : string) : string :=
  match s with
  | EmptyString => EmptyString
  | String c s' =>
      match skip with
      | S k => replaceLoop old new limit k s'
      | 0 =>
          if match limit with Some 0 => false | _ => String.prefix old s end
          then new ++ replaceLoop old new (Nat.pred <$> limit)
                        (String.length old - 1) s'
          else String c (replaceLoop old new limit 0 s')
      end
  end.

(** [strings.Replace s old new n] for a non-empty [old]; a negative [n]
    lifts the limit on the number of replacements. *)
Definition Replace (s old new : string) (n : Z) : string :=
  if (String.eqb old new || (n =? 0)%Z)%bool then s
  else replaceLoop old new (if (n <? 0)%Z then None else Some (Z.to_nat n)) 0 s.

(** Whether the byte [c] occurs in [s]. *)
Fixpoint mentions (c : ascii) (s : string) : bool :=
  match s with
  | EmptyString => false
  | String x s' => Ascii.eqb x c || mentions c s'
  end.

End strings.

(** ** Go's [path.Clean] *)
Module path.

(** The output buffer ([lazybuf]) is kept as the list of the bytes written
    so far, last byte first: [out.w] is its length, [out.append c] conses
    and [out.w--] drops the head. *)
Definition lazybuf := list ascii.

(** [for ; r < n && path[r] != '/'; r++ { out.append(path[r]) }] *)
Fixpoint copyElem (rest : string) (out : lazybuf) : string * lazybuf :=
  match rest with
  | EmptyString => (rest, out)
  | String c rest' =>
      if Ascii.eqb c "/" then (rest, out) else copyElem rest' (c :: out)
  end.

(** [out.w--; for out.w > dotdot && out.index(out.w) != '/' { out.w-- }] *)
Fixpoint backtrack (dotdot : nat) (out : lazybuf) : lazybuf :=
  match out with
  | [] => []
  | c :: out' =>
      if (dotdot <? length out')%nat && negb (Ascii.eqb c "/")
      then backtrack dotdot out'
      else out'
  end.

(** [r+k == n || path[r+k] == '/'], on the bytes from [r+k] on. *)
Definition endOrSlash (rest : string) : bool :=
  match rest with
  | EmptyString => true
  | String c _ => Ascii.eqb c "/"
  end.

Definition headIs (c : ascii) (rest : string) : bool :=
  match rest with
  | EmptyString => false
  | String d _ => Ascii.eqb d c
  end.

Definition tail (rest : string) : string :=
  match rest with
  | EmptyString => EmptyString
  | String _ t => t
  end.

(** The main loop [for r < n { switch ... }]; [rest] is [path[r:]].  Every
    turn consumes at least one byte, so [fuel = len(path)] is enough. *)
Fixpoint cleanLoop (fuel : nat) (rooted : bool) (rest : string)
    (out : lazybuf) (dotdot : nat) : lazybuf :=
  match fuel with
  | 0 => out
  | S fuel =>
      match rest with
      | EmptyString => out
      | String c r1 =>
          if Ascii.eqb c "/" then
            (* empty path element *)
            cleanLoop fuel rooted r1 out dotdot
          else if Ascii.eqb c "." && endOrSlash r1 then
            (* . element *)
            cleanLoop fuel rooted r1 out dotdot
          else if Ascii.eqb c "." && headIs "." r1 && endOrSlash (tail r1) then
            (* .. element: remove to last / *)
            let r2 := tail r1 in
            if (dotdot <? length out)%nat then
              cleanLoop fuel rooted r2 (backtrack dotdot out) dotdot
            else if negb rooted then
              let out := if (0 <? length out)%nat then "/"%char :: out else out in
              let out := "."%char :: "."%char :: out in
              cleanLoop fuel rooted r2 out (length out)
            else cleanLoop fuel rooted r2 out dotdot
          else
            (* real path element: add slash if needed, copy element *)
            let out :=
              if (rooted && negb (length out =? 1)%nat)
                 || (negb rooted && negb (length out =? 0)%nat)
              then "/"%char :: out else out in
            let '(rest', out') := copyElem rest out in
            cleanLoop fuel rooted rest' out' dotdot
      end
  end.

Definition bufString (out : lazybuf) : string :=
  string_of_list_ascii (rev out).

Definition Clean (p : string) : string :=
  match p with
  | EmptyString => "."
  | String c0 p' =>
      let rooted := Ascii.eqb c0 "/" in
      let out :=
        if rooted then cleanLoop (String.length p) rooted p' ["/"%char] 1
        else cleanLoop (String.length p) rooted p [] 0 in
      if (length out =? 0)%nat then "." else bufString out
  end.

End path.

(** ** Go's [strconv]: [ParseInt] in base 10 and decimal formatting *)
Module strconv.

Inductive NumError := ErrSyntax | ErrRange.

Definition digit (c : ascii) : option Z :=
  let n := Z.of_nat (nat_of_ascii c) in
  if ((48 <=? n) && (n <=? 57))%Z then Some (n - 48)%Z else None.

(** The digit loop of [ParseUint], without its overflow cut-off: the value
    is accumulated in [Z] and compared with the bounds afterwards. *)
Fixpoint digits (acc : Z) (s : string) : option Z :=
  match s with
  | EmptyString => Some acc
  | String c s' =>
      match digit c with
      | Some d => digits (10 * acc + d)%Z s'
      | None => None
      end
  end.

(** [strconv.ParseUint s 10 64]; on overflow Go returns the largest value
    together with [ErrRange]. *)
Definition ParseUint (s : string) : Z * option NumError :=
  match s with
  | EmptyString => (0%Z, Some ErrSyntax)
  | _ =>
      match digits 0 s with
      | None => (0%Z, Some ErrSyntax)
      | Some un =>
          if (un <? 2 ^ 64)%Z then (un, None)
          else ((2 ^ 64 - 1)%Z, Some ErrRange)
      end
  end.

(** [strconv.ParseInt s 10 64]: [inr n] on success. *)
Definition ParseInt (s : string) : NumError + Z :=
  match s with
  | EmptyString => inl ErrSyntax
  | String c0 s1 =>
      let '(neg, s') :=
        if Ascii.eqb c0 "+" then (false, s1)
        else if Ascii.eqb c0 "-" then (true, s1)
        else (false, s) in
      match ParseUint s' with
      | (_, Some ErrSyntax) => inl ErrSyntax
      | (un, _) =>
          let cutoff := (2 ^ 63)%Z in
          if negb neg && (cutoff <=? un)%Z then inl ErrRange
          else if neg && (cutoff <? un)%Z then inl ErrRange
          else inr (if neg then (- un)%Z else un)
      end
  end.

Fixpoint posDigits (fuel : nat) (n : Z) (acc : string) : string :=
  match fuel with
  | 0 => acc
  | S fuel =>
      let acc := String (ascii_of_nat (Z.to_nat (48 + n mod 10))) acc in
      if (n <? 10)%Z then acc else posDigits fuel (n / 10)%Z acc
  end.

(** [strconv.FormatInt n 10], which is also what [fmt]'s [%d] prints. *)
Definition FormatInt (n : Z) : string :=
  if (n <? 0)%Z then "-" ++ posDigits (S (Z.to_nat (Z.log2 (- n)))) (- n)%Z EmptyString
  else posDigits (S (Z.to_nat (Z.log2 n))) n EmptyString.

End strconv.

(** ** [encoding/base64]: [StdEncoding.DecodeString] *)
Module base64.

Definition decodeMap (c : ascii) : option Z :=
  let n := Z.of_nat (nat_of_ascii c) in
  if ((65 <=? n) && (n <=? 90))%Z then Some (n - 65)%Z
  else if ((97 <=? n) && (n <=? 122))%Z then Some (n - 71)%Z
  else if ((48 <=? n) && (n <=? 57))%Z then Some (n + 4)%Z
  else if (n =? 43)%Z then Some 62%Z
  else if (n =? 47)%Z then Some 63%Z
  else None.

Definition byteOf (v : Z) : ascii := ascii_of_nat (Z.to_nat (v mod 256)).

Definition isPad (c : ascii) : bool := Ascii.eqb c "=".

(** One quantum of four characters at a time; padding is only accepted in
    the last quantum ([xx==] or [xxx=]) and nothing may follow it. *)
Fixpoint decodeQuanta (src : list ascii) : option (list ascii) :=
  match src with
  | [] => Some []
  | a :: b :: c :: d :: rest =>
      match decodeMap a, decodeMap b with
      | Some va, Some vb =>
          match decodeMap c, decodeMap d with
          | Some vc, Some vd =>
              let v := (va * 262144 + vb * 4096 + vc * 64 + vd)%Z in
              match decodeQuanta rest with
              | Some out =>
                  Some (byteOf (v / 65536) :: byteOf (v / 256) :: byteOf v :: out)
              | None => None
              end
          | Some vc, None =>
              if isPad d && (match rest with [] => true | _ => false end)
              then let v := (va * 262144 + vb * 4096 + vc * 64)%Z in
                   Some [byteOf (v / 65536); byteOf (v / 256)]
              else None
          | None, _ =>
              if isPad c && isPad d && (match rest with [] => true | _ => false end)
              then let v := (va * 262144 + vb * 4096)%Z in
                   Some [byteOf (v / 65536)]
              else None
          end
      | _, _ => None
      end
  | _ => None
  end.

Definition isNewline (c : ascii) : bool :=
  Ascii.eqb c "010" || Ascii.eqb c "013".

(** [base64.StdEncoding.DecodeString]: carriage returns and line feeds are
    skipped; [None] stands for a [CorruptInputError]. *)
Definition DecodeString (s : string) : option string :=
  string_of_list_ascii <$>
    decodeQuanta (List.filter (fun c => negb (isNewline c)) (list_ascii_of_string s)).

End base64.

(** ** [time]: an instant with the offset of its location, and its date *)
Module time.

(** A [time.Time]: seconds since the epoch, and the offset east of UTC, in
    seconds, that the value's location has at that instant. *)
Record Time := { unix : Z; offset : Z }.

Definition UTC (t : Time) : Time := {| unix := unix t; offset := 0 |}.

(** The proleptic Gregorian date of a day number counted from 1970-01-01. *)
Definition civil (days : Z) : Z * Z * Z :=
  (let z := days + 719468 in
   let era := z / 146097 in
   let doe := z - era * 146097 in
   let yoe := (doe - doe / 1460 + doe / 36524 - doe / 146096) / 365 in
   let doy := doe - (365 * yoe + yoe / 4 - yoe / 100) in
   let mp := (5 * doy + 2) / 153 in
   let d := doy - (153 * mp + 2) / 5 + 1 in
   let m := if mp <? 10 then mp + 3 else mp - 9 in
   let y := yoe + era * 400 + (if m <=? 2 then 1 else 0) in
   (y, m, d))%Z.

(** [t.Date()]: year, month and day in the location of [t]. *)
Definition Date (t : Time) : Z * Z * Z :=
  civil ((unix t + offset t) / 86400)%Z.

End time.

(** ** [fmt]: the two integer verbs used by the gateway *)
Module fmt.

(** [%d] *)
Definition d (n : Z) : string := strconv.FormatInt n.

(** [%02d]: zero padding up to width two, the sign counting in the width. *)
Definition d02 (n : Z) : string :=
  if ((0 <=? n) && (n <? 10))%Z then "0" ++ strconv.FormatInt n
  else strconv.FormatInt n.

End fmt.

(** ** The external packages the handlers call into *)

(** [err.Error()] of a Go [error]. *)
Definition error := string.

(** [gopkg.in/raintank/schema.v1]: the metric record.  [Payload] stands for
    the fields the gateway never reads or writes (interval, value, unit,
    time). *)
Module schema.

Record MetricData (Payload : Type) := mkMetricData {
  Id : string;
  OrgId : Z;
  Name : string;
  Metric : string;
  Mtype : string;
  Tags : list string;
  Rest : Payload
}.
Arguments mkMetricData {Payload}.
Arguments Id {Payload}.
Arguments OrgId {Payload}.
Arguments Name {Payload}.
Arguments Metric {Payload}.
Arguments Mtype {Payload}.
Arguments Tags {Payload}.
Arguments Rest {Payload}.

Section Setters.
Context {Payload : Type}.
Implicit Type m : MetricData Payload.

Definition withId (v : string) m :=
  mkMetricData v (OrgId m) (Name m) (Metric m) (Mtype m) (Tags m) (Rest m).
Definition withOrgId (v : Z) m :=
  mkMetricData (Id m) v (Name m) (Metric m) (Mtype m) (Tags m) (Rest m).
Definition withMetric (v : string) m :=
  mkMetricData (Id m) (OrgId m) (Name m) v (Mtype m) (Tags m) (Rest m).
Definition withMtype (v : string) m :=
  mkMetricData (Id m) (OrgId m) (Name m) (Metric m) v (Tags m) (Rest m).
Definition withTags (v : list string) m :=
  mkMetricData (Id m) (OrgId m) (Name m) (Metric m) (Mtype m) v (Rest m).
End Setters.

End schema.

(** [github.com/raintank/tsdb-gw/auth]: the identity and the two named
    failures of the authentication plugin. *)
Module auth.

Record User := mkUser { OrgId : Z; IsAdmin : bool }.

(** The errors of the plugin: the two the gateway tells apart, and any
    other, each with the text of its [Error()]. *)
Inductive Err :=
| ErrInvalidKey (text : error)
| ErrInvalidOrgId (text : error)
| ErrOther (text : error).

Definition Error (e : Err) : error :=
  match e with
  | ErrInvalidKey text | ErrInvalidOrgId text | ErrOther text => text
  end.

End auth.

(** ** Package [api] *)
Module api.

Local Open Scope list_scope.

(** A slice of [*schema.MetricData]: an entry is [None] for a nil pointer.
    The decoders allocate one record per entry, so no two entries alias and
    writing through the pointer at index [i] is an update at index [i]. *)
Abbreviation batch Payload := (list (option (schema.MetricData Payload))).

(** What [ioutil.ReadAll] returns on a body: the bytes read, and the read
    error if reading stopped on one. *)
Record Reader := mkReader { data : string; readErr : option error }.

Record Request := mkRequest {
  Method : string;
  Header : string -> string;        (* Header.Get, empty when absent *)
  Body : option Reader              (* None: a nil Body *)
}.

(** [Context]: the request, the route parameters and the embedded
    [*auth.User]. *)
Record Context := mkContext {
  Req : Request;
  Params : string -> string;
  User : auth.User
}.

(** The value handed to [ctx.JSON]. *)
Inductive jsonValue := JString (s : string) | JError (e : error).

(** What a handler does to the world around it, in order. *)
Inductive event (Payload : Type) :=
| EvJSON (status : Z) (v : jsonValue)            (* ctx.JSON(status, v) *)
| EvLog (format arg : string)                    (* glog.Errorf, Warningf *)
| EvUnmarshal (body : string)                    (* json.Unmarshal *)
| EvInitFromMsg (body : string)                  (* metricData.InitFromMsg *)
| EvDecodeMetricData                             (* metricData.DecodeMetricData *)
| EvValidate (m : schema.MetricData Payload)     (* m.Validate() *)
| EvRejectedAdd (n : nat)                        (* metricsRejected.Add(n) *)
| EvValidAdd (n : nat)                           (* metricsValid.Add(n) *)
| EvPublish (metrics : batch Payload)            (* metric_publish.Publish *)
| EvProxy (orgId : Z)                            (* elasticsearch.Proxy *)
| EvPanic (msg : string).                        (* a run-time panic *)
Arguments EvJSON {Payload}.
Arguments EvLog {Payload}.
Arguments EvUnmarshal {Payload}.
Arguments EvInitFromMsg {Payload}.
Arguments EvDecodeMetricData {Payload}.
Arguments EvValidate {Payload}.
Arguments EvRejectedAdd {Payload}.
Arguments EvValidAdd {Payload}.
Arguments EvPublish {Payload}.
Arguments EvProxy {Payload}.
Arguments EvPanic {Payload}.

(** Everything the handlers consume from outside this package: the schema
    package's methods, the decoders, the publisher, the authentication
    plugin, and the two configuration values. *)
Class Externals (Payload Envelope : Type) := {
  (* m.Validate(): None when the record is well-formed *)
  Validate : schema.MetricData Payload -> option error;
  (* the identity m.SetId() stores in m.Id *)
  computeId : schema.MetricData Payload -> string;
  (* json.Unmarshal(body, &metrics) *)
  Unmarshal : string -> error + batch Payload;
  (* metricData.InitFromMsg(body) *)
  InitFromMsg : string -> error + Envelope;
  (* metricData.DecodeMetricData() *)
  DecodeMetricData : Envelope -> error + batch Payload;
  (* reading the body through snappy.NewReader *)
  snappyReader : option Reader -> Reader;
  (* metric_publish.Publish(metrics) *)
  Publish : batch Payload -> option error;
  (* a.authPlugin.Auth(key) *)
  authPlugin : string -> auth.Err + auth.User;
  (* flag public-org, default -1 *)
  publicOrgId : Z;
  (* elasticsearch.IndexName *)
  IndexName : string
}.

(** What a function that may panic comes back with. *)
Inductive outcome (A : Type) := Returns (a : A) | Panics (msg : string).
Arguments Returns {A}.
Arguments Panics {A}.

Section Handlers.
Context {Payload Envelope : Type} {E : Externals Payload Envelope}.
Abbreviation MetricData := (schema.MetricData Payload).
Abbreviation trace := (list (event Payload)).

(** [m.SetId()] *)
Definition SetId (m : MetricData) : MetricData :=
  schema.withId (computeId m) m.

(** Lines 79-81: an empty [Mtype] becomes ["gauge"]. *)
Definition defaultMtype (m : MetricData) : MetricData :=
  if String.eqb (schema.Mtype m) EmptyString then schema.withMtype "gauge" m else m.

(** The admin loop, [for _, m := range metrics] of lines 76-100 (and
    163-187).  The range expression is evaluated once, so the loop makes
    [k = len(metrics)] turns however [metrics] grows meanwhile; [i] is
    the index of the turn and [metrics] the current slice.  The result is
    the trace and, unless the handler returned or panicked inside the
    loop, the slice after the loop. *)
Fixpoint rangeAdmin (k i : nat) (metrics : batch Payload)
    : trace * option (batch Payload) :=
  match k with
  | 0 => ([], Some metrics)
  | S k' =>
      match metrics !! i with
      | None => ([EvPanic "index out of range"], None)
      | Some None => ([EvPanic "nil pointer dereference"], None)
      | Some (Some m) =>
          let m := schema.withMetric (schema.Name m) m in
          let m := defaultMtype m in
          let m := schema.withTags [] m in
          match Validate m with
          | Some err =>
              ([EvValidate m; EvRejectedAdd (length metrics);
                EvJSON 400 (JString err)], None)
          | None =>
              let validated := m in
              let m := SetId m in
              let '(m, metrics) :=
                if ((schema.OrgId m =? -1) && negb (publicOrgId =? -1))%Z
                then
                  let public := m in                           (* public := *m *)
                  let m := schema.withOrgId publicOrgId m in   (* m.OrgId = *publicOrgId *)
                  let public := SetId public in                (* public.SetId() *)
                  (m, metrics ++ [Some public])                (* append(metrics, &public) *)
                else (m, metrics) in
              let '(tr, r) := rangeAdmin k' (S i) (<[i := Some m]> metrics) in
              (EvValidate validated :: tr, r)
          end
      end
  end.

(** The loop of the other callers, lines 102-116 (and 189-203). *)
Fixpoint rangeUser (orgId : Z) (k i : nat) (metrics : batch Payload)
    : trace * option (batch Payload) :=
  match k with
  | 0 => ([], Some metrics)
  | S k' =>
      match metrics !! i with
      | None => ([EvPanic "index out of range"], None)
      | Some None => ([EvPanic "nil pointer dereference"], None)
      | Some (Some m) =>
          let m := schema.withOrgId orgId m in
          let m := schema.withMetric (schema.Name m) m in
          let m := defaultMtype m in
          let m := schema.withTags [] m in
          match Validate m with
          | Some err =>
              ([EvValidate m; EvRejectedAdd (length metrics);
                EvJSON 400 (JString err)], None)
          | None =>
              let validated := m in
              let m := SetId m in
              let '(tr, r) := rangeUser orgId k' (S i) (<[i := Some m]> metrics) in
              (EvValidate validated :: tr, r)
          end
      end
  end.

(** What both ingestion handlers do with a decoded batch: the loop of
    the caller's kind, then the valid counter and the publisher. *)
Definition ingest (ctx : Context) (metrics : batch Payload) : trace :=
  let '(tr, r) :=
    if auth.IsAdmin (User ctx)
    then rangeAdmin (length metrics) 0 metrics
    else rangeUser (auth.OrgId (User ctx)) (length metrics) 0 metrics in
  match r with
  | None => tr
  | Some metrics =>
      tr ++ [EvValidAdd (length metrics); EvPublish metrics] ++
      match Publish metrics with
      | Some err =>
          [EvLog "failed to publish metrics. %s" err;
           EvJSON 500 (JError err)]
      | None => [EvJSON 200 (JString "ok")]
      end
  end.

(** [metricsJson].  The deferred [Body.Close()] is a method call on an
    interface value, which panics when the value is nil. *)
Definition metricsJson (ctx : Context) : trace :=
  match Body (Req ctx) with
  | None => [EvPanic "nil pointer dereference"]
  | Some rd =>
      let body := data rd in
      (match readErr rd with
       | Some err => [EvLog "unable to read request body. %s" err]
       | None => []
       end) ++
      EvUnmarshal body ::
      match Unmarshal body with
      | inl err =>
          [EvJSON 400 (JString ("unable to parse request body. " ++ err)%string)]
      | inr metrics => ingest ctx metrics
      end
  end.

(** The [body] of [metricsBinary]: the request's body, or a snappy reader
    around it, which is not nil even when the request's body is. *)
Definition binaryBody (ctx : Context) (compressed : bool) : option Reader :=
  if compressed then Some (snappyReader (Body (Req ctx)))
  else Body (Req ctx).

(** [metricsBinary] *)
Definition metricsBinary (ctx : Context) (compressed : bool) : trace :=
  match binaryBody ctx compressed with
  | None => [EvPanic "nil pointer dereference"]      (* defer body.Close() *)
  | Some rd =>
      match Body (Req ctx) with
      | Some _ =>
          match readErr rd with
          | Some err =>
              [EvLog "unable to read request body. %s" err;
               EvJSON 500 (JError err)]
          | None =>
              EvInitFromMsg (data rd) ::
              match InitFromMsg (data rd) with
              | inl err =>
                  [EvLog "payload not metricData. %s" err;
                   EvJSON 500 (JError err)]
              | inr metricData =>
                  EvDecodeMetricData ::
                  match DecodeMetricData metricData with
                  | inl err =>
                      [EvLog "failed to unmarshal metricData. %s" err;
                       EvJSON 500 (JError err)]
                  | inr metrics => ingest ctx metrics
                  end
              end
          end
      | None => [EvJSON 400 (JString "no data included in request.")]
      end
  end.

(** [Metrics]: dispatch on the declared content type. *)
Definition Metrics (ctx : Context) : trace :=
  let contentType := Header (Req ctx) "Content-Type" in
  if String.eqb contentType "rt-metric-binary" then metricsBinary ctx false
  else if String.eqb contentType "rt-metric-binary-snappy" then metricsBinary ctx true
  else if String.eqb contentType "application/json" then metricsJson ctx
  else [EvJSON 400 (JString ("unknown content-type: " ++ contentType)%string)].

(** Line 13: the name of the index of the day of [t], in the location
    of [t]. *)
Definition idxDate (t : time.Time) : string :=
  let '(y, m, d) := time.Date t in
  (IndexName ++ "-" ++ fmt.d y ++ "-" ++ fmt.d02 m ++ "-" ++ fmt.d02 d)%string.

(** [ElasticsearchProxy]; [now] is the value of [time.Now()], a time in
    the gateway's local zone. *)
Definition ElasticsearchProxy (now : time.Time) (c : Context) : trace :=
  let proxyPath := Params c "*" in
  if String.eqb (Method (Req c)) "GET"
     && String.eqb proxyPath (idxDate now ++ "/_stats")%string
  then [EvJSON 200 (JString "ok")]
  else if String.eqb (Method (Req c)) "POST" && String.eqb proxyPath "_msearch"
  then [EvProxy (auth.OrgId (User c))]
  else [EvJSON 404 (JString "Not Found")].

(** [getApiKey]: the key and the error it returns.  [len(parts) == 2]
    is the match on a two-element slice; indexing a slice out of its
    range panics. *)
Definition getApiKey (c : Context) : outcome (string * option error) :=
  let header := Header (Req c) "Authorization" in
  let parts := strings.SplitN header " " 2 in
  match parts with
  | [p0; p1] =>
      if String.eqb p0 "Bearer" then Returns (p1, None)
      else if String.eqb p0 "Basic" then
        match base64.DecodeString p1 with
        | None =>
            (* glog.Warningf; the error names the offending byte, which
               is left out here *)
            Returns (EmptyString, Some "illegal base64 data")
        | Some decoded =>
            let userAndPass := strings.SplitN decoded ":" 2 in
            match userAndPass !! 0 with
            | None => Panics "index out of range"
            | Some u =>
                if String.eqb u "api_key" then
                  match userAndPass !! 1 with
                  | Some pass => Returns (pass, None)
                  | None => Panics "index out of range"
                  end
                else Returns (EmptyString, None)
            end
        end
      else Returns (EmptyString, None)
  | _ => Returns (EmptyString, None)
  end.

(** The handler [Auth] returns: its trace, and the user it leaves in the
    context ([None] when [ctx.User] is not assigned). *)
Definition Auth (ctx : Context) : trace * option auth.User :=
  match getApiKey ctx with
  | Panics msg => ([EvPanic msg], None)
  | Returns (_, Some _) =>
      ([EvJSON 401 (JString "Invalid Authentication header.")], None)
  | Returns (key, None) =>
      if String.eqb key EmptyString then ([EvJSON 401 (JString "Unauthorized")], None)
      else
        match authPlugin key with
        | inl err =>
            match err with
            | auth.ErrOther msg =>
                ([EvLog "failed to perform authentication: %q" msg;
                  EvJSON 500 (JString msg)], None)
            | _ => ([EvJSON 401 (JString (auth.Error err))], None)
            end
        | inr user =>
            (* allow admin users to impersonate other orgs. *)
            let user :=
              if auth.IsAdmin user then
                let header := Header (Req ctx) "X-Tsdb-Org" in
                if negb (String.eqb header EmptyString) then
                  match strconv.ParseInt header with
                  | inr orgId =>
                      if negb (orgId =? 0)%Z
                      then auth.mkUser orgId (auth.IsAdmin user)
                      else user
                  | inl _ => user
                  end
                else user
              else user in
            ([], Some user)
        end
  end.

(** [pathSlug] *)
Definition pathSlug (p : string) : string :=
  let slug := strings.TrimPrefix (path.Clean p) "/" in
  let slug := if String.eqb slug EmptyString then "root" else slug in
  strings.Replace (strings.Replace slug "/" "_" (-1)) "." "_" (-1).

(** *** What is observed of a trace *)

(** The responses written, the batches handed to the publisher, the
    amounts added to the two counters, the records validated and the
    number of calls into a decoder. *)
Definition responses (tr : trace) : list (Z * jsonValue) :=
  omap (fun e => match e with EvJSON st v => Some (st, v) | _ => None end) tr.

Definition published (tr : trace) : list (batch Payload) :=
  omap (fun e => match e with EvPublish b => Some b | _ => None end) tr.

Definition rejectedAdds (tr : trace) : list nat :=
  omap (fun e => match e with EvRejectedAdd n => Some n | _ => None end) tr.

Definition validAdds (tr : trace) : list nat :=
  omap (fun e => match e with EvValidAdd n => Some n | _ => None end) tr.

Definition validated (tr : trace) : list MetricData :=
  omap (fun e => match e with EvValidate m => Some m | _ => None end) tr.

Definition decoderCalls (tr : trace) : nat :=
  length (List.filter (fun e => match e with
                           | EvUnmarshal _ | EvInitFromMsg _
                           | EvDecodeMetricData => true
                           | _ => false
                           end) tr).

(** *** The normal form of a record, by kind of caller *)

(** Lines 77-82: name, default type, tags. *)
Definition normalize (m : MetricData) : MetricData :=
  schema.withTags [] (defaultMtype (schema.withMetric (schema.Name m) m)).

(** Line 94: the record is public and a public organization is set. *)
Definition isPublic (m : MetricData) : bool :=
  ((schema.OrgId m =? -1) && negb (publicOrgId =? -1))%Z.

(** What the admin loop leaves at the index of a valid record [m], and
    what it appends for it. *)
Definition adminSlot (m : MetricData) : MetricData :=
  let m := SetId (normalize m) in
  if isPublic m then schema.withOrgId publicOrgId m else m.

Definition adminAppended (m : MetricData) : list MetricData :=
  let m := SetId (normalize m) in
  if isPublic m then [SetId m] else [].

(** What the other loop leaves at the index of a valid record [m]. *)
Definition userSlot (orgId : Z) (m : MetricData) : MetricData :=
  SetId (normalize (schema.withOrgId orgId m)).

(** The record a caller's loop validates for the decoded record [m]. *)
Definition checked (ctx : Context) (m : MetricData) : MetricData :=
  if auth.IsAdmin (User ctx) then normalize m
  else normalize (schema.withOrgId (auth.OrgId (User ctx)) m).

(** The number of copies the loop appends while it goes through
    [records]. *)
Definition appendedBy (ctx : Context) (records : list MetricData) : nat :=
  if auth.IsAdmin (User ctx)
  then length (flat_map adminAppended records)
  else 0.

(** *** A handler that got a batch out of its decoder *)

(** [decoded ctx metrics tr]: [tr] is what an ingestion handler does on
    [ctx], and its decoder produced [metrics]. *)
Definition decoded (ctx : Context) (metrics : batch Payload) (tr : trace) : Prop :=
  (exists rd, Body (Req ctx) = Some rd /\
              Unmarshal (data rd) = inr metrics /\
              tr = metricsJson ctx)
  \/
  (exists compressed rd metricData,
      Body (Req ctx) <> None /\
      binaryBody ctx compressed = Some rd /\
      readErr rd = None /\
      InitFromMsg (data rd) = inr metricData /\
      DecodeMetricData metricData = inr metrics /\
      tr = metricsBinary ctx compressed).

(** *** A handler whose body does not decode *)

(** The JSON parser rejects the bytes read. *)
Definition jsonParseFails (ctx : Context) (err : error) : Prop :=
  exists rd, Body (Req ctx) = Some rd /\ Unmarshal (data rd) = inl err.

(** The binary body cannot be read (which is also how a failure of the
    decompression shows), or its envelope or its batch is malformed. *)
Definition binaryFails (ctx : Context) (compressed : bool) (err : error) : Prop :=
  exists rd,
    Body (Req ctx) <> None /\
    binaryBody ctx compressed = Some rd /\
    (readErr rd = Some err \/
     (readErr rd = None /\
      (InitFromMsg (data rd) = inl err \/
       exists metricData,
         InitFromMsg (data rd) = inr metricData /\
         DecodeMetricData metricData = inl err))).

End Handlers.

(** *** The handlers around the route handlers *)
Section Middleware.
Context {Payload Envelope : Type} {E : Externals Payload Envelope}.

(** [GetContextHandler]: the context of a request, with the zero
    [auth.User]. *)
Definition GetContextHandler (req : Request) (params : string -> string) : Context :=
  mkContext req params (auth.mkUser 0 false).

(** Line 90 of [Auth]: [ctx.User = user]. *)
Definition assignUser (ctx : Context) (user : auth.User) : Context :=
  mkContext (Req ctx) (Params ctx) user.

(** [RequireAdmin] *)
Definition RequireAdmin (ctx : Context) : list (event Payload) :=
  if negb (auth.IsAdmin (User ctx))
  then [EvJSON 403 (JString "Permision denied")]
  else [].

(** Whether a trace ends in a panic. *)
Definition panicked (tr : list (event Payload)) : bool :=
  existsb (fun e => match e with EvPanic _ => true | _ => false end) tr.

(** A loop of [k] turns validates some records and then either is
    through, or has rejected the next record, or has panicked. *)
Definition loopEnd (k : nat) (out : list (event Payload) * option (batch Payload)) : Prop :=
  exists vs,
    (exists res, out = (map EvValidate vs, Some res) /\ length vs = k) \/
    (exists v n err,
        out = (map EvValidate vs ++
               [EvValidate v; EvRejectedAdd n; EvJSON 400 (JString err)], None) /\
        length vs < k) \/
    (exists msg, out = (map EvValidate vs ++ [EvPanic msg], None) /\ length vs < k).

(** A trace that ends with its only response, or with a panic before
    anything was answered or published. *)
Definition endsWell (tr : list (event Payload)) : Prop :=
  (exists pre st v,
      tr = pre ++ [EvJSON st v] /\ responses pre = [] /\ panicked pre = false)
  \/
  (exists pre msg,
      tr = pre ++ [EvPanic msg] /\
      responses pre = [] /\ published pre = [] /\ panicked pre = false).

End Middleware.

(** *** The response writer and its tracing decorator *)

(** [macaron.ResponseWriter], as far as this package uses it. *)
Class ResponseWriter (W : Type) := {
  rwStatus : W -> Z;                                (* Status() *)
  rwSize : W -> Z;                                  (* Size() *)
  rwWriteHeader : W -> Z -> W;                      (* WriteHeader(status) *)
  rwWrite : W -> string -> W * (Z * option error)   (* Write(b) *)
}.

(** [TracingResponseWriter]: the embedded writer and the body in case it
    is an error. *)
Record TracingResponseWriter (W : Type) := mkTracing {
  inner : W;
  errBody : string
}.
Arguments mkTracing {W}.
Arguments inner {W}.
Arguments errBody {W}.

(** What the inner chain of handlers does with the response. *)
Inductive call := CallWriteHeader (status : Z) | CallWrite (b : string).

Section Writers.
Context {W : Type} {RW : ResponseWriter W}.

(** The method [Write] of [TracingResponseWriter]. *)
Definition TracingResponseWriter_Write (rw : TracingResponseWriter W) (b : string)
    : TracingResponseWriter W * (Z * option error) :=
  let rw :=
    if (400 <=? rwStatus (inner rw))%Z
    then mkTracing (inner rw) b        (* make, copy *)
    else rw in
  let '(w, r) := rwWrite (inner rw) b in
  (mkTracing w (errBody rw), r).

(** The calls of a chain on a plain writer. *)
Fixpoint runPlain (w : W) (calls : list call) : W :=
  match calls with
  | [] => w
  | CallWriteHeader status :: rest => runPlain (rwWriteHeader w status) rest
  | CallWrite b :: rest => runPlain (rwWrite w b).1 rest
  end.

(** The same calls on the decorated writer: [WriteHeader] is the embedded
    writer's, [Write] the decorator's. *)
Fixpoint runTraced (rw : TracingResponseWriter W) (calls : list call)
    : TracingResponseWriter W :=
  match calls with
  | [] => rw
  | CallWriteHeader status :: rest =>
      runTraced (mkTracing (rwWriteHeader (inner rw) status) (errBody rw)) rest
  | CallWrite b :: rest =>
      runTraced (TracingResponseWriter_Write rw b).1 rest
  end.



End Writers.

(** *** Request statistics *)

(** The metrics of [github.com/grafana/metrictank/stats] the middleware
    creates and feeds, whatever they are made of. *)
Class StatsLib (C H M : Type) := {
  NewCounter32 : string -> C;
  Inc : C -> C;
  NewLatencyHistogram15s32 : string -> H;
  histValue : H -> Z -> H;                  (* p.Value(dur) *)
  NewMeter32 : string -> bool -> M;
  meterValue : M -> Z -> M                  (* p.Value(size) *)
}.

(** [requestStats]; the mutex is left out, the maps hold the metrics by
    value. *)
Record requestStats (C H M : Type) := mkRequestStats {
  responseCounts : gmap string (gmap Z C);
  latencyHistograms : gmap string H;
  sizeMeters : gmap string M
}.
Arguments mkRequestStats {C H M}.
Arguments responseCounts {C H M}.
Arguments latencyHistograms {C H M}.
Arguments sizeMeters {C H M}.

Section Stats.
Context {C H M : Type} {SL : StatsLib C H M}.
Context {W : Type} {RW : ResponseWriter W}.

(** Line 125: the name of the counter of a path and a status. *)
Definition metricKey (path : string) (status : Z) : string :=
  ("api.request." ++ path ++ ".status." ++ fmt.d status)%string.

(** [PathStatusCount] *)
Definition PathStatusCount (r : requestStats C H M) (path : string) (status : Z)
    : requestStats C H M :=
  let p := match responseCounts r !! path with
           | Some p => p
           | None => ∅
           end in
  let c := match p !! status with
           | Some c => c
           | None => NewCounter32 (metricKey path status)
           end in
  mkRequestStats (<[path := <[status := Inc c]> p]> (responseCounts r))
                 (latencyHistograms r) (sizeMeters r).

(** [PathLatency] *)
Definition PathLatency (r : requestStats C H M) (path : string) (dur : Z)
    : requestStats C H M :=
  let p := match latencyHistograms r !! path with
           | Some p => p
           | None => NewLatencyHistogram15s32 ("api.request." ++ path)%string
           end in
  mkRequestStats (responseCounts r)
                 (<[path := histValue p dur]> (latencyHistograms r))
                 (sizeMeters r).

(** [PathSize] *)
Definition PathSize (r : requestStats C H M) (path : string) (size : Z)
    : requestStats C H M :=
  let p := match sizeMeters r !! path with
           | Some p => p
           | None => NewMeter32 ("api.request." ++ path ++ ".size")%string false
           end in
  mkRequestStats (responseCounts r) (latencyHistograms r)
                 (<[path := meterValue p size]> (sizeMeters r)).

(** The statistics [RequestStats] starts with. *)
Definition newRequestStats : requestStats C H M := mkRequestStats ∅ ∅ ∅.

(** The handler [RequestStats] returns, on the statistics [stats] it
    closes over: [next] is what the rest of the chain does with the
    response and [elapsed] the time it took. *)
Definition RequestStats (stats : requestStats C H M) (urlPath : string)
    (elapsed : Z) (rw : W) (next : list call) : requestStats C H M * W :=
  let rw := runPlain rw next in                        (* ctx.Next() *)
  let status := rwStatus rw in
  let path := pathSlug urlPath in
  let stats :=
    if negb (status =? 404)%Z
    then PathLatency (PathStatusCount stats path status) path elapsed
    else stats in
  let stats :=
    if (status <? 300)%Z then PathSize stats path (rwSize rw) else stats in
  (stats, rw).

(** One request as the middleware sees it, and the statistics after a
    run of requests served one after the other. *)
Record served := mkServed {
  servedPath : string;
  servedElapsed : Z;
  servedCalls : list call
}.

Fixpoint serveAll (stats : requestStats C H M) (fresh : W) (reqs : list served)
    : requestStats C H M :=
  match reqs with
  | [] => stats
  | r :: rest =>
      serveAll (RequestStats stats (servedPath r) (servedElapsed r) fresh
                  (servedCalls r)).1 fresh rest
  end.

(** The counter of a path and a status, if there is one. *)
Definition counterAt (stats : requestStats C H M) (path : string) (status : Z)
    : option C :=
  match responseCounts stats !! path with
  | Some p => p !! status
  | None => None
  end.

(** The status a request ends with on a fresh writer. *)
Definition servedStatus (fresh : W) (r : served) : Z :=
  rwStatus (runPlain fresh (servedCalls r)).

(** Whether a request counts for the counter of [path] and [status]. *)
Definition countsFor (fresh : W) (path : string) (status : Z) (r : served) : bool :=
  String.eqb (pathSlug (servedPath r)) path
  && (servedStatus fresh r =? status)%Z
  && negb (servedStatus fresh r =? 404)%Z.

(** A metric after [n] observations more. *)
Definition bumped (n : nat) (path : string) (status : Z) (c : option C) : option C :=
  match n with
  | 0 => c
  | S _ => Some (Nat.iter n Inc (default (NewCounter32 (metricKey path status)) c))
  end.

(** Whether a request is timed, and whether it is sized, under [path]. *)
Definition timedFor (fresh : W) (path : string) (r : served) : bool :=
  String.eqb (pathSlug (servedPath r)) path
  && negb (servedStatus fresh r =? 404)%Z.

Definition sizedFor (fresh : W) (path : string) (r : served) : bool :=
  String.eqb (pathSlug (servedPath r)) path
  && (servedStatus fresh r <? 300)%Z.

(** The size of the response a request ends with on a fresh writer. *)
Definition servedSize (fresh : W) (r : served) : Z :=
  rwSize (runPlain fresh (servedCalls r)).

(** A metric created on the first of the observations [xs] and fed with
    them in order, if there are any. *)
Definition fed {A : Type} (value : A -> Z -> A) (new : A) (xs : list Z)
    (p : option A) : option A :=
  match xs with
  | [] => p
  | _ :: _ => Some (fold_left value xs (default new p))
  end.

End Stats.

(** *** A small world to run the handlers in *)
Module sample.

Definition record (org : Z) (name : string) : schema.MetricData unit :=
  schema.mkMetricData EmptyString org name EmptyString EmptyString [] tt.

(** A validator in the manner of the schema package: no organization 0
    and no empty name. *)
Definition validate (m : schema.MetricData unit) : option error :=
  if (schema.OrgId m =? 0)%Z then Some "org-id cannot be 0"
  else if String.eqb (schema.Name m) EmptyString then Some "name cannot be empty"
  else None.

(** An identity made of the organization and the metric name. *)
Definition identity (m : schema.MetricData unit) : string :=
  (strconv.FormatInt (schema.OrgId m) ++ "." ++ schema.Metric m)%string.

Fixpoint lookupBody (bodies : list (string * batch unit)) (body : string)
    : option (batch unit) :=
  match bodies with
  | [] => None
  | (b, metrics) :: rest =>
      if String.eqb b body then Some metrics else lookupBody rest body
  end.

Definition users (key : string) : auth.Err + auth.User :=
  if String.eqb key "admin-key" then inr (auth.mkUser 1 true)
  else if String.eqb key "user-key" then inr (auth.mkUser 7 false)
  else inl (auth.ErrInvalidKey "invalid key").

(** The world: [bodies] lists the request bodies that decode, with the
    batch each decodes to; a binary message is a nine-byte header and
    then the body. *)
Definition world (public : Z) (bodies : list (string * batch unit))
    : Externals unit string := {|
  Validate := validate;
  computeId := identity;
  Unmarshal body :=
    match lookupBody bodies body with
    | Some metrics => inr metrics
    | None => inl "unexpected end of JSON input"
    end;
  InitFromMsg body :=
    if (String.length body <? 9)%nat then inl "too small"
    else inr (String.substring 9 (String.length body - 9) body);
  DecodeMetricData msg :=
    match lookupBody bodies msg with
    | Some metrics => inr metrics
    | None => inl "msgp: too few bytes left to read object"
    end;
  snappyReader body :=
    match body with
    | Some rd => rd
    | None => mkReader EmptyString (Some "invalid argument")
    end;
  Publish _ := None;
  authPlugin := users;
  publicOrgId := public;
  IndexName := "idx"
|}.

Definition headers (contentType authorization org : string) (h : string) : string :=
  if String.eqb h "Content-Type" then contentType
  else if String.eqb h "Authorization" then authorization
  else if String.eqb h "X-Tsdb-Org" then org
  else EmptyString.

(** The decoded form of the two bodies used below: one public record,
    and a public record followed by a record without a name. *)
Definition x : schema.MetricData unit := record (-1) "x".
Definition nameless : schema.MetricData unit := record 3 EmptyString.

Definition bodies : list (string * batch unit) :=
  [("one-public-record", [Some x]);
   ("public-then-nameless", [Some x; Some nameless])].

(** The gateway with public organization 5. *)
Definition gateway : Externals unit string := world 5 bodies.

Definition admin : auth.User := auth.mkUser 1 true.
Definition tenant : auth.User := auth.mkUser 7 false.

Definition bytes (body : string) : option Reader := Some (mkReader body None).

(** A JSON request with the given body, from the given user. *)
Definition post (user : auth.User) (body : option Reader) : Context :=
  mkContext (mkRequest "POST" (headers "application/json" EmptyString EmptyString) body)
            (fun _ => EmptyString) user.

(** The same with a declared content type. *)
Definition send (contentType : string) (user : auth.User)
    (body : option Reader) : Context :=
  mkContext (mkRequest "POST" (headers contentType EmptyString EmptyString) body)
            (fun _ => EmptyString) user.

(** A request with the given method and wildcard path. *)
Definition route (method wildcard : string) (user : auth.User) : Context :=
  mkContext (mkRequest method (headers EmptyString EmptyString EmptyString) None)
            (fun p => if String.eqb p "*" then wildcard else EmptyString) user.

(** A request with the given credential and impersonation header. *)
Definition login (authorization org : string) : Context :=
  mkContext (mkRequest "GET" (headers EmptyString authorization org) None)
            (fun _ => EmptyString) (auth.mkUser 0 false).

(** A response writer that records what it is given; the first write
    without a header makes the status 200. *)
Record recorder := mkRecorder { status : Z; written : string }.

Definition recorderWriter : ResponseWriter recorder := {|
  rwStatus := status;
  rwSize w := Z.of_nat (String.length (written w));
  rwWriteHeader w st := mkRecorder st (written w);
  rwWrite w b :=
    (mkRecorder (if (status w =? 0)%Z then 200%Z else status w)
                (written w ++ b)%string,
     (Z.of_nat (String.length b), None))
|}.

(** Metrics that keep their name and what they were given. *)
Definition tally : StatsLib (string * Z) (string * list Z) (string * list Z) := {|
  NewCounter32 name := (name, 0%Z);
  Inc c := (c.1, ((c.2 + 1) mod 2 ^ 32)%Z);
  NewLatencyHistogram15s32 name := (name, []);
  histValue h dur := (h.1, h.2 ++ [dur]);
  NewMeter32 name _ := (name, []);
  meterValue m size := (m.1, m.2 ++ [size])
|}.

End sample.

End api.

(** * Properties *)

Import api.

Abbreviation gw := sample.gateway.

(** ** The library functions on known inputs *)

Example ParseInt_cases :
  map strconv.ParseInt
    ["42"; "+12"; "-7"; "007"; "0"; "-0"; EmptyString; "-"; "4 2"; "0x10"; "1_000";
     "9223372036854775807"; "9223372036854775808";
     "-9223372036854775808"; "-9223372036854775809"]%string
  = [inr 42; inr 12; inr (-7); inr 7; inr 0; inr 0;
     inl strconv.ErrSyntax; inl strconv.ErrSyntax; inl strconv.ErrSyntax;
     inl strconv.ErrSyntax; inl strconv.ErrSyntax;
     inr 9223372036854775807; inl strconv.ErrRange;
     inr (-9223372036854775808); inl strconv.ErrRange]%Z.
Proof. reflexivity. Qed.

Example DecodeString_cases :
  map base64.DecodeString
    ["YXBpX2tleTpzZWNyZXQ="; "YXBpX2tleQ=="; "YXBp"; EmptyString; "YXB"; "Y=Bp";
     "YXBp="; "YX!p"]%string
  = [Some "api_key:secret"; Some "api_key"; Some "api"; Some EmptyString;
     None; None; None; None]%string.
Proof. reflexivity. Qed.

Example Date_cases :
  map time.civil [0; -1; 11016; 19722; 19723; 19782; 19783]%Z
  = [(1970, 1, 1); (1969, 12, 31); (2000, 2, 29); (2023, 12, 31);
     (2024, 1, 1); (2024, 2, 29); (2024, 3, 1)]%Z.
Proof. reflexivity. Qed.

Example SplitN_cases :
  map (fun s => strings.SplitN s " " 2)
    ["Bearer abc"; "Basic a b"; "Bearer"; EmptyString; " x"; "a  b"]%string
  = [["Bearer"; "abc"]; ["Basic"; "a b"]; ["Bearer"]; [EmptyString]; [EmptyString; "x"];
     ["a"; " b"]]%string.
Proof. reflexivity. Qed.

(** ** Path normalization *)
Section PathSlug.

Local Open Scope char_scope.
Local Open Scope list_scope.

Lemma prefix_single c x s :
  String.prefix (String c EmptyString) (String x s) = Ascii.eqb x c.
Proof.
  simpl. destruct (ascii_dec c x) as [->|Hne].
  - rewrite Ascii.eqb_refl. now destruct s.
  - symmetry. apply Ascii.eqb_neq. congruence.
Qed.

Lemma replaceLoop_single c d s :
  strings.replaceLoop (String c EmptyString) (String d EmptyString) None 0 s
  = match s with
    | EmptyString => EmptyString
    | String x s' =>
        String (if Ascii.eqb x c then d else x)
          (strings.replaceLoop (String c EmptyString) (String d EmptyString) None 0 s')
    end.
Proof.
  destruct s as [|x s']; [reflexivity|].
  cbn [strings.replaceLoop]. rewrite prefix_single.
  destruct (Ascii.eqb x c); reflexivity.
Qed.

Lemma Replace_single c d s :
  c <> d ->
  strings.Replace s (String c EmptyString) (String d EmptyString) (-1)
  = strings.replaceLoop (String c EmptyString) (String d EmptyString) None 0 s.
Proof.
  intros Hne. unfold strings.Replace.
  replace (String.eqb (String c EmptyString) (String d EmptyString)) with false; [reflexivity|].
  symmetry. apply String.eqb_neq. congruence.
Qed.

(** Replacing a byte that does not occur changes nothing. *)
Lemma Replace_absent c d s :
  c <> d -> strings.mentions c s = false ->
  strings.Replace s (String c EmptyString) (String d EmptyString) (-1) = s.
Proof.
  intros Hne. rewrite Replace_single by assumption.
  induction s as [|x s IH]; [reflexivity|].
  rewrite replaceLoop_single. cbn [strings.mentions].
  intros [Hx Hs]%orb_false_elim. rewrite Hx, IH; auto.
Qed.

(** After the replacement the replaced byte is gone. *)
Lemma Replace_removes c d s :
  c <> d ->
  strings.mentions c
    (strings.Replace s (String c EmptyString) (String d EmptyString) (-1)) = false.
Proof.
  intros Hne. rewrite Replace_single by assumption.
  induction s as [|x s IH]; [reflexivity|].
  rewrite replaceLoop_single. cbn [strings.mentions]. rewrite IH, orb_false_r.
  destruct (Ascii.eqb x c) eqn:Hx; [|assumption].
  apply Ascii.eqb_neq. congruence.
Qed.

(** The replacement brings in no byte other than the new one. *)
Lemma Replace_keeps_absent e c d s :
  c <> d -> e <> d -> strings.mentions e s = false ->
  strings.mentions e
    (strings.Replace s (String c EmptyString) (String d EmptyString) (-1)) = false.
Proof.
  intros Hne Hed. rewrite Replace_single by assumption.
  induction s as [|x s IH]; [reflexivity|].
  rewrite replaceLoop_single. cbn [strings.mentions].
  intros [Hx Hs]%orb_false_elim. rewrite IH, orb_false_r by assumption.
  destruct (Ascii.eqb x c); [|assumption].
  apply Ascii.eqb_neq. congruence.
Qed.

Lemma Replace_nonempty c d s :
  c <> d -> s <> EmptyString ->
  strings.Replace s (String c EmptyString) (String d EmptyString) (-1) <> EmptyString.
Proof.
  intros Hne Hs. rewrite Replace_single by assumption.
  destruct s; [congruence|]. rewrite replaceLoop_single. discriminate.
Qed.

(** The element copy takes a slash-free rest whole. *)
Lemma copyElem_plain rest out :
  strings.mentions "/" rest = false ->
  path.copyElem rest out = (EmptyString, rev (list_ascii_of_string rest) ++ out).
Proof.
  revert out. induction rest as [|x rest IH]; intros out; [reflexivity|].
  cbn [strings.mentions path.copyElem list_ascii_of_string].
  intros [Hx Hs]%orb_false_elim. rewrite Hx, IH by assumption.
  cbn [rev]. now rewrite <- app_assoc.
Qed.

Lemma copyElem_shorter rest out :
  String.length (path.copyElem rest out).1 <= String.length rest.
Proof.
  revert out. induction rest as [|x rest IH]; intros out; [reflexivity|].
  cbn [path.copyElem]. destruct (Ascii.eqb x "/"); [reflexivity|].
  specialize (IH (x :: out)). cbn [String.length]. lia.
Qed.

Lemma tail_shorter rest : String.length (path.tail rest) <= String.length rest.
Proof. destruct rest; cbn; lia. Qed.

(** The loop of [path.Clean] is not cut short: with any fuel that is at
    least the number of bytes left it gives the same buffer. *)
Lemma cleanLoop_fuel f1 : forall f2 rooted rest out dotdot,
  String.length rest <= f1 -> String.length rest <= f2 ->
  path.cleanLoop f1 rooted rest out dotdot = path.cleanLoop f2 rooted rest out dotdot.
Proof.
  induction f1 as [|f1 IH]; intros f2 rooted rest out dotdot H1 H2.
  - destruct rest; [|cbn in H1; lia]. now destruct f2.
  - destruct rest as [|c r1]; [now destruct f2|].
    destruct f2 as [|f2]; [cbn in H2; lia|].
    cbn [String.length] in H1, H2. cbn [path.cleanLoop].
    pose proof (tail_shorter r1) as Ht.
    destruct (Ascii.eqb c "/") eqn:Hc; [apply IH; lia|].
    destruct (_ && _)%bool; [apply IH; lia|].
    destruct (_ && _ && _)%bool.
    + destruct (_ <? _)%nat; [apply IH; lia|].
      destruct (negb rooted); apply IH; lia.
    + cbn [path.copyElem]. rewrite Hc.
      match goal with |- context [path.copyElem r1 ?o] =>
        pose proof (copyElem_shorter r1 o) as Hs;
        destruct (path.copyElem r1 o) as [rest' out'] end.
      cbn [fst] in Hs. apply IH; lia.
Qed.

(** Some of the cases of Go's own test of [path.Clean]. *)
Example Clean_cases :
  map path.Clean
    ["abc"; "abc/def"; "."; ".."; "../../abc"; "/abc"; "/"; EmptyString; "abc/";
     "./"; "abc//def//ghi"; "//abc//"; "abc/./def"; "/./abc/def";
     "abc/def/ghi/../jkl"; "abc/def/../.."; "/abc/def/../..";
     "abc/def/../../.."; "/abc/def/../../..";
     "abc/def/../../../ghi/jkl/../../../mno"; "abc/../../././../def"]%string
  = ["abc"; "abc/def"; "."; ".."; "../../abc"; "/abc"; "/"; "."; "abc";
     "."; "abc/def/ghi"; "/abc"; "abc/def"; "/abc/def";
     "abc/def/jkl"; "."; "/";
     ".."; "/";
     "../../mno"; "../../def"]%string.
Proof. reflexivity. Qed.

(** A non-empty name without slash or dot is clean already. *)
Lemma Clean_plain s :
  s <> EmptyString ->
  strings.mentions "/" s = false -> strings.mentions "." s = false ->
  path.Clean s = s.
Proof.
  intros Hs Hslash Hdot. destruct s as [|x s]; [congruence|].
  pose proof Hslash as Hslash'. pose proof Hdot as Hdot'.
  cbn [strings.mentions] in Hslash', Hdot'.
  apply orb_false_elim in Hslash' as [Hx1 _].
  apply orb_false_elim in Hdot' as [Hx2 _].
  unfold path.Clean. rewrite Hx1.
  cbn [String.length path.cleanLoop]. rewrite Hx1, Hx2.
  cbn [andb negb orb length Nat.eqb].
  rewrite copyElem_plain by assumption.
  rewrite app_nil_r.
  assert (Hloop : forall n out, path.cleanLoop n false EmptyString out 0 = out)
    by (intros [|n] out; reflexivity).
  rewrite Hloop.
  cbn [list_ascii_of_string rev].
  rewrite length_app. cbn [length]. rewrite Nat.add_comm. cbn [Nat.add Nat.eqb].
  unfold path.bufString.
  change (rev (list_ascii_of_string s) ++ [x])
    with (rev (list_ascii_of_string (String x s))).
  now rewrite rev_involutive, string_of_list_ascii_of_string.
Qed.

Lemma TrimPrefix_plain s :
  strings.mentions "/" s = false -> strings.TrimPrefix s "/" = s.
Proof.
  intros Hs. unfold strings.TrimPrefix, strings.HasPrefix.
  destruct s as [|x s]; [reflexivity|].
  rewrite prefix_single.
  cbn [strings.mentions] in Hs. apply orb_false_elim in Hs as [-> _]. reflexivity.
Qed.

(** The slug of any path is a non-empty name without slash or dot. *)
Lemma pathSlug_plain p :
  pathSlug p <> EmptyString /\
  strings.mentions "/" (pathSlug p) = false /\
  strings.mentions "." (pathSlug p) = false.
Proof.
  unfold pathSlug.
  set (slug := if String.eqb _ _ then _ else _).
  assert (Hne : slug <> EmptyString).
  { subst slug. destruct (String.eqb _ _) eqn:Heq; [discriminate|].
    now apply String.eqb_neq. }
  repeat split.
  - apply Replace_nonempty, Replace_nonempty; [discriminate..|assumption].
  - apply Replace_keeps_absent; [discriminate..|].
    apply Replace_removes. discriminate.
  - apply Replace_removes. discriminate.
Qed.

(** C9: path normalization is idempotent, ["/a/b.c"] normalizes to
    ["a_b_c"] and ["/"] to ["root"]. *)
Theorem pathSlug_idempotent :
  (forall p, pathSlug (pathSlug p) = pathSlug p) /\
  pathSlug "/a/b.c" = "a_b_c"%string /\
  pathSlug "/" = "root"%string.
Proof.
  split; [|split; reflexivity].
  intros p. destruct (pathSlug_plain p) as (Hne & Hslash & Hdot).
  generalize dependent (pathSlug p). intros s Hne Hslash Hdot.
  unfold pathSlug. rewrite Clean_plain, TrimPrefix_plain by assumption.
  apply String.eqb_neq in Hne. rewrite Hne.
  rewrite (Replace_absent "/" "_") by (assumption || discriminate).
  apply Replace_absent; [discriminate|assumption].
Qed.

End PathSlug.

(** ** The two loops over a decoded batch *)
Section Loops.
Context {Payload Envelope : Type} {E : Externals Payload Envelope}.
Implicit Types (m : schema.MetricData Payload) (ms : list (schema.MetricData Payload)).
Implicit Types (rest done extra metrics : batch Payload).

Local Open Scope list_scope.

Lemma insert_middle {A} (l1 l2 : list A) (x y : A) :
  <[length l1 := y]> (l1 ++ x :: l2) = (l1 ++ [y]) ++ l2.
Proof.
  rewrite insert_app_r_alt by lia. rewrite Nat.sub_diag. cbn.
  now rewrite <- app_assoc.
Qed.

Lemma length_snoc {A} (l : list A) (x : A) : length (l ++ [x]) = S (length l).
Proof. rewrite length_app. cbn. lia. Qed.

(** Closes an equation between two traces that differ in how the amount
    added to the rejected counter is written. *)
Ltac same_count :=
  match goal with
  | |- ?L = ?R =>
      match L with
      | context [EvRejectedAdd ?a] =>
          match R with
          | context [EvRejectedAdd ?b] => replace a with b by lia
          end
      end
  end; reflexivity.

Lemma snoc_extra {A} (d l e : list A) (x y : A) :
  (d ++ x :: l ++ e) ++ [y] = d ++ x :: l ++ (e ++ [y]).
Proof. rewrite <- app_assoc. cbn. now rewrite <- app_assoc. Qed.

(** After the write at index [length done] the loop goes on one index
    further, on one more finished entry. *)
Ltac next_turn :=
  rewrite insert_middle;
  match goal with
  | |- context [ (?d ++ [?y]) ++ _ ] => rewrite <- (length_snoc d y)
  end.

(** The loop of the other callers comes to its end only on a batch of
    valid records, and then leaves each record forced to the caller's
    organization, normalized and identified, at its index. *)
Lemma rangeUser_Some orgId rest : forall done tr res,
  rangeUser orgId (length rest) (length done) (done ++ rest) = (tr, Some res) ->
  exists ms,
    rest = map Some ms /\
    Forall (fun m => Validate (normalize (schema.withOrgId orgId m)) = None) ms /\
    tr = map (fun m => EvValidate (normalize (schema.withOrgId orgId m))) ms /\
    res = done ++ map (fun m => Some (userSlot orgId m)) ms.
Proof.
  induction rest as [|e rest IH]; intros done tr res.
  - cbn. intros [= <- <-]. exists []. cbn.
    split; [reflexivity|]. split; [constructor|]. split; reflexivity.
  - cbn [length rangeUser]. rewrite list_lookup_middle by reflexivity.
    destruct e as [m|]; [|discriminate].
    fold (normalize (schema.withOrgId orgId m)).
    destruct (Validate _) eqn:Hv; [discriminate|].
    next_turn.
    destruct (rangeUser _ _ _ _) as [tr' r'] eqn:Hrec. intros [= <- ->].
    apply IH in Hrec as (ms & -> & Hall & -> & ->).
    exists (m :: ms). cbn [map]. repeat split; auto.
    now rewrite <- app_assoc.
Qed.

(** At the first invalid record the loop of the other callers adds the
    length of the batch to the rejected counter and answers 400. *)
Lemma rangeUser_invalid orgId ms : forall done bad post err,
  Forall (fun m => Validate (normalize (schema.withOrgId orgId m)) = None) ms ->
  Validate (normalize (schema.withOrgId orgId bad)) = Some err ->
  rangeUser orgId (length (map Some ms ++ Some bad :: post)) (length done)
    (done ++ map Some ms ++ Some bad :: post)
  = (map (fun m => EvValidate (normalize (schema.withOrgId orgId m))) ms ++
     [EvValidate (normalize (schema.withOrgId orgId bad));
      EvRejectedAdd (length done + length ms + S (length post));
      EvJSON 400 (JString err)], None).
Proof.
  induction ms as [|m ms IH]; intros done bad post err Hall Hbad.
  - cbn [map app length rangeUser]. rewrite list_lookup_middle by reflexivity.
    fold (normalize (schema.withOrgId orgId bad)). rewrite Hbad.
    rewrite length_app. cbn [length]. now rewrite Nat.add_0_r.
  - apply Forall_cons in Hall as [Hm Hall].
    cbn [map app length rangeUser]. rewrite list_lookup_middle by reflexivity.
    fold (normalize (schema.withOrgId orgId m)). rewrite Hm.
    next_turn.
    rewrite (IH _ _ _ _ Hall Hbad). rewrite length_snoc.
    replace (S (length done) + length ms) with (length done + S (length ms)) by lia.
    reflexivity.
Qed.

(** The admin loop comes to its end only on a batch of valid records;
    it then leaves [adminSlot m] at the index of each decoded record [m]
    and has appended [adminAppended m] for each, in order, after all that
    was in the slice. *)
Lemma rangeAdmin_Some rest : forall done extra tr res,
  rangeAdmin (length rest) (length done) (done ++ rest ++ extra) = (tr, Some res) ->
  exists ms,
    rest = map Some ms /\
    Forall (fun m => Validate (normalize m) = None) ms /\
    tr = map (fun m => EvValidate (normalize m)) ms /\
    res = done ++ map (fun m => Some (adminSlot m)) ms ++ extra
               ++ map Some (flat_map adminAppended ms).
Proof.
  induction rest as [|e rest IH]; intros done extra tr res.
  - cbn. intros [= <- <-]. exists []. cbn. rewrite app_nil_r.
    split; [reflexivity|]. split; [constructor|]. split; reflexivity.
  - cbn [length rangeAdmin app]. rewrite list_lookup_middle by reflexivity.
    destruct e as [m|]; [|discriminate].
    fold (normalize m).
    destruct (Validate _) eqn:Hv; [discriminate|].
    fold (isPublic (SetId (normalize m))).
    destruct (isPublic (SetId (normalize m))) eqn:Hpub.
    + rewrite <- !app_assoc. cbn [app]. rewrite <- app_assoc.
      next_turn.
      destruct (rangeAdmin _ _ _) as [tr' r'] eqn:Hrec. intros [= <- ->].
      apply IH in Hrec as (ms & -> & Hall & -> & ->).
      exists (m :: ms). cbn [map flat_map]. unfold adminSlot, adminAppended.
      rewrite Hpub. repeat split; auto.
      rewrite <- !app_assoc. cbn [app map]. reflexivity.
    + next_turn.
      destruct (rangeAdmin _ _ _) as [tr' r'] eqn:Hrec. intros [= <- ->].
      apply IH in Hrec as (ms & -> & Hall & -> & ->).
      exists (m :: ms). cbn [map flat_map]. unfold adminSlot, adminAppended.
      rewrite Hpub. repeat split; auto.
      rewrite <- !app_assoc. cbn [app map]. reflexivity.
Qed.

(** At the first invalid record the admin loop adds the length the
    slice has by then to the rejected counter: what was decoded and what
    the loop has appended so far. *)
Lemma rangeAdmin_invalid ms : forall done bad post extra err,
  Forall (fun m => Validate (normalize m) = None) ms ->
  Validate (normalize bad) = Some err ->
  rangeAdmin (length (map Some ms ++ Some bad :: post)) (length done)
    (done ++ (map Some ms ++ Some bad :: post) ++ extra)
  = (map (fun m => EvValidate (normalize m)) ms ++
     [EvValidate (normalize bad);
      EvRejectedAdd (length done + length ms + S (length post) + length extra
                     + length (flat_map adminAppended ms));
      EvJSON 400 (JString err)], None).
Proof.
  induction ms as [|m ms IH]; intros done bad post extra err Hall Hbad.
  - cbn [map app length rangeAdmin flat_map].
    rewrite list_lookup_middle by reflexivity.
    fold (normalize bad). rewrite Hbad.
    rewrite !length_app. cbn [length]. rewrite length_app.
    same_count.
  - apply Forall_cons in Hall as [Hm Hall].
    cbn [map app length rangeAdmin flat_map].
    rewrite list_lookup_middle by reflexivity.
    fold (normalize m). rewrite Hm.
    fold (isPublic (SetId (normalize m))).
    destruct (isPublic (SetId (normalize m))) eqn:Hpub.
    + replace (adminAppended m) with [SetId (SetId (normalize m))]
        by (unfold adminAppended; now rewrite Hpub).
      rewrite snoc_extra. next_turn.
      rewrite (IH _ _ _ _ _ Hall Hbad). rewrite length_snoc.
      rewrite !length_app. cbn [length app].
      same_count.
    + replace (adminAppended m) with (@nil (schema.MetricData Payload))
        by (unfold adminAppended; now rewrite Hpub).
      next_turn.
      rewrite (IH _ _ _ _ _ Hall Hbad). rewrite length_snoc.
      cbn [app]. same_count.
Qed.

(** On a batch of valid records both loops come to their end. *)
Lemma rangeUser_valid orgId ms : forall done,
  Forall (fun m => Validate (normalize (schema.withOrgId orgId m)) = None) ms ->
  rangeUser orgId (length (map Some ms)) (length done) (done ++ map Some ms)
  = (map (fun m => EvValidate (normalize (schema.withOrgId orgId m))) ms,
     Some (done ++ map (fun m => Some (userSlot orgId m)) ms)).
Proof.
  induction ms as [|m ms IH]; intros done Hall; [reflexivity|].
  apply Forall_cons in Hall as [Hm Hall].
  cbn [map length rangeUser]. rewrite list_lookup_middle by reflexivity.
  fold (normalize (schema.withOrgId orgId m)). rewrite Hm.
  next_turn. rewrite (IH _ Hall). now rewrite <- app_assoc.
Qed.

Lemma rangeAdmin_valid ms : forall done extra,
  Forall (fun m => Validate (normalize m) = None) ms ->
  rangeAdmin (length (map Some ms)) (length done) (done ++ map Some ms ++ extra)
  = (map (fun m => EvValidate (normalize m)) ms,
     Some (done ++ map (fun m => Some (adminSlot m)) ms ++ extra
             ++ map Some (flat_map adminAppended ms))).
Proof.
  induction ms as [|m ms IH]; intros done extra Hall.
  - cbn. now rewrite app_nil_r.
  - apply Forall_cons in Hall as [Hm Hall].
    cbn [map app length rangeAdmin flat_map].
    rewrite list_lookup_middle by reflexivity.
    fold (normalize m). rewrite Hm.
    fold (isPublic (SetId (normalize m))).
    destruct (isPublic (SetId (normalize m))) eqn:Hpub.
    + replace (adminAppended m) with [SetId (SetId (normalize m))]
        by (unfold adminAppended; now rewrite Hpub).
      replace (adminSlot m) with (schema.withOrgId publicOrgId (SetId (normalize m)))
        by (unfold adminSlot; now rewrite Hpub).
      rewrite snoc_extra. next_turn. rewrite (IH _ _ Hall).
      rewrite <- !app_assoc. reflexivity.
    + replace (adminAppended m) with (@nil (schema.MetricData Payload))
        by (unfold adminAppended; now rewrite Hpub).
      replace (adminSlot m) with (SetId (normalize m))
        by (unfold adminSlot; now rewrite Hpub).
      next_turn. rewrite (IH _ _ Hall).
      rewrite <- !app_assoc. reflexivity.
Qed.

(** Neither loop publishes or touches the valid counter. *)
Lemma rangeUser_quiet orgId k : forall i metrics,
  published (rangeUser orgId k i metrics).1 = [] /\
  validAdds (rangeUser orgId k i metrics).1 = [].
Proof.
  induction k as [|k IH]; intros i metrics; [split; reflexivity|].
  cbn [rangeUser]. destruct (metrics !! i) as [[m|]|]; [|split; reflexivity..].
  destruct (Validate _); [split; reflexivity|].
  match goal with |- context [rangeUser orgId k ?j ?l] =>
    specialize (IH j l); destruct (rangeUser orgId k j l) end.
  exact IH.
Qed.

Lemma rangeAdmin_quiet k : forall i metrics,
  published (rangeAdmin k i metrics).1 = [] /\
  validAdds (rangeAdmin k i metrics).1 = [].
Proof.
  induction k as [|k IH]; intros i metrics; [split; reflexivity|].
  cbn [rangeAdmin]. destruct (metrics !! i) as [[m|]|]; [|split; reflexivity..].
  destruct (Validate _); [split; reflexivity|].
  destruct (_ && _)%bool;
    match goal with |- context [rangeAdmin k ?j ?l] =>
      specialize (IH j l); destruct (rangeAdmin k j l) end;
    exact IH.
Qed.

End Loops.

(** ** Ingestion *)
Section Ingestion.
Context {Payload Envelope : Type} {E : Externals Payload Envelope}.
Implicit Types (m : schema.MetricData Payload) (ms : list (schema.MetricData Payload)).
Implicit Types (metrics b : batch Payload) (ctx : Context).
Implicit Types (tr : list (event Payload)).

Local Open Scope list_scope.

Lemma OrgId_normalize m : schema.OrgId (normalize m) = schema.OrgId m.
Proof. unfold normalize, defaultMtype. cbn. now destruct (String.eqb _ _). Qed.

Lemma isPublic_identified m : isPublic (SetId (normalize m)) = isPublic m.
Proof.
  unfold isPublic, SetId, schema.withId. cbn [schema.OrgId].
  now rewrite OrgId_normalize.
Qed.

Lemma validated_map (f : schema.MetricData Payload -> schema.MetricData Payload) ms :
  validated (map (fun m => EvValidate (f m)) ms) = map f ms.
Proof. induction ms as [|m ms IH]; [reflexivity|]. cbn. now f_equal. Qed.

Lemma published_map (f : schema.MetricData Payload -> schema.MetricData Payload) ms :
  published (map (fun m => EvValidate (f m)) ms) = [].
Proof. induction ms as [|m ms IH]; [reflexivity|]. exact IH. Qed.

Lemma rejectedAdds_map (f : schema.MetricData Payload -> schema.MetricData Payload) ms :
  rejectedAdds (map (fun m => EvValidate (f m)) ms) = [].
Proof. induction ms as [|m ms IH]; [reflexivity|]. exact IH. Qed.

Lemma responses_map (f : schema.MetricData Payload -> schema.MetricData Payload) ms :
  responses (map (fun m => EvValidate (f m)) ms) = [].
Proof. induction ms as [|m ms IH]; [reflexivity|]. exact IH. Qed.

(** What a handler does before it has a batch is seen by none of the
    observations on batches. *)
Lemma decoded_ingest ctx metrics tr :
  decoded ctx metrics tr ->
  responses tr = responses (ingest ctx metrics) /\
  published tr = published (ingest ctx metrics) /\
  rejectedAdds tr = rejectedAdds (ingest ctx metrics) /\
  validated tr = validated (ingest ctx metrics).
Proof.
  intros [(rd & Hbody & Hdec & ->) | (c & rd & md & Hbody & Hrd & Herr & Hinit & Hdec & ->)].
  - unfold metricsJson. rewrite Hbody, Hdec.
    unfold responses, published, rejectedAdds, validated.
    rewrite !omap_app. destruct (readErr rd); repeat split; reflexivity.
  - unfold metricsBinary. rewrite Hrd.
    destruct (Body (Req ctx)); [|congruence].
    rewrite Herr, Hinit, Hdec. repeat split; reflexivity.
Qed.

(** A published batch: every decoded entry was a valid record, exactly
    those were validated, and the batch is what the caller's loop left. *)
Lemma ingest_published ctx metrics b :
  In b (published (ingest ctx metrics)) ->
  exists ms,
    metrics = map Some ms /\
    Forall (fun m => Validate (checked ctx m) = None) ms /\
    validated (ingest ctx metrics) = map (checked ctx) ms /\
    b = if auth.IsAdmin (User ctx)
        then map (fun m => Some (adminSlot m)) ms
               ++ map Some (flat_map adminAppended ms)
        else map (fun m => Some (userSlot (auth.OrgId (User ctx)) m)) ms.
Proof.
  unfold ingest, checked. destruct (auth.IsAdmin (User ctx)).
  - pose proof (rangeAdmin_quiet (length metrics) 0 metrics) as [Hq _].
    destruct (rangeAdmin _ _ _) as [tr [res|]] eqn:Hloop;
      [|cbn [fst] in Hq; rewrite Hq; intros []].
    pose proof (rangeAdmin_Some metrics [] [] tr res) as Hs.
    cbn [app length] in Hs. rewrite app_nil_r in Hs.
    destruct (Hs Hloop) as (ms & -> & Hall & -> & ->). clear Hs.
    unfold published, validated. rewrite !omap_app.
    fold (published (map (fun m => EvValidate (normalize m)) ms)).
    fold (validated (map (fun m => EvValidate (normalize m)) ms)).
    rewrite published_map, validated_map.
    intros Hin. exists ms. repeat split; auto.
    + destruct (Publish _); cbn; now rewrite app_nil_r.
    + destruct (Publish _); cbn in Hin; destruct Hin as [<-|[]]; reflexivity.
  - pose proof (rangeUser_quiet (auth.OrgId (User ctx)) (length metrics) 0 metrics) as [Hq _].
    destruct (rangeUser _ _ _ _) as [tr [res|]] eqn:Hloop;
      [|cbn [fst] in Hq; rewrite Hq; intros []].
    pose proof (rangeUser_Some (auth.OrgId (User ctx)) metrics [] tr res) as Hs.
    cbn [app length] in Hs.
    destruct (Hs Hloop) as (ms & -> & Hall & -> & ->). clear Hs.
    unfold published, validated. rewrite !omap_app.
    fold (published (map (fun m => EvValidate (normalize (schema.withOrgId (auth.OrgId (User ctx)) m))) ms)).
    fold (validated (map (fun m => EvValidate (normalize (schema.withOrgId (auth.OrgId (User ctx)) m))) ms)).
    rewrite published_map.
    rewrite (validated_map (fun m => normalize (schema.withOrgId (auth.OrgId (User ctx)) m))).
    intros Hin. exists ms. repeat split; auto.
    + destruct (Publish _); cbn; now rewrite app_nil_r.
    + destruct (Publish _); cbn in Hin; destruct Hin as [<-|[]]; reflexivity.
Qed.

(** A batch with an invalid record after valid ones only. *)
Lemma ingest_invalid ctx ms bad post err :
  Forall (fun m => Validate (checked ctx m) = None) ms ->
  Validate (checked ctx bad) = Some err ->
  ingest ctx (map Some ms ++ Some bad :: post)
  = map (fun m => EvValidate (checked ctx m)) ms ++
    [EvValidate (checked ctx bad);
     EvRejectedAdd (length (map Some ms ++ Some bad :: post) + appendedBy ctx ms);
     EvJSON 400 (JString err)].
Proof.
  unfold ingest, checked, appendedBy. destruct (auth.IsAdmin (User ctx)); intros Hall Hbad.
  - pose proof (rangeAdmin_invalid ms [] bad post [] err Hall Hbad) as Hloop.
    cbn [app length] in Hloop. rewrite app_nil_r in Hloop. rewrite Hloop.
    rewrite length_app, length_map. cbn [length Nat.add].
    f_equal. f_equal. f_equal. f_equal. lia.
  - pose proof (rangeUser_invalid (auth.OrgId (User ctx)) ms [] bad post err Hall Hbad) as Hloop.
    cbn [app length] in Hloop. rewrite Hloop.
    rewrite length_app, length_map. cbn [length Nat.add].
    f_equal. f_equal. f_equal. f_equal. lia.
Qed.

(** A batch of valid records is published, once and whole. *)
Lemma ingest_valid ctx ms :
  Forall (fun m => Validate (checked ctx m) = None) ms ->
  exists b,
    published (ingest ctx (map Some ms)) = [b] /\
    rejectedAdds (ingest ctx (map Some ms)) = [] /\
    b = if auth.IsAdmin (User ctx)
        then map (fun m => Some (adminSlot m)) ms
               ++ map Some (flat_map adminAppended ms)
        else map (fun m => Some (userSlot (auth.OrgId (User ctx)) m)) ms.
Proof.
  unfold ingest, checked. destruct (auth.IsAdmin (User ctx)); intros Hall.
  - pose proof (rangeAdmin_valid ms [] [] Hall) as Hloop.
    cbn [app length] in Hloop. rewrite app_nil_r in Hloop. rewrite Hloop.
    eexists. unfold published, rejectedAdds. rewrite !omap_app.
    fold (published (map (fun m => EvValidate (normalize m)) ms)).
    fold (rejectedAdds (map (fun m => EvValidate (normalize m)) ms)).
    rewrite published_map, rejectedAdds_map.
    destruct (Publish _); repeat split; reflexivity.
  - pose proof (rangeUser_valid (auth.OrgId (User ctx)) ms [] Hall) as Hloop.
    cbn [app length] in Hloop. rewrite Hloop.
    eexists. unfold published, rejectedAdds. rewrite !omap_app.
    fold (published (map (fun m => EvValidate (normalize (schema.withOrgId (auth.OrgId (User ctx)) m))) ms)).
    fold (rejectedAdds (map (fun m => EvValidate (normalize (schema.withOrgId (auth.OrgId (User ctx)) m))) ms)).
    rewrite published_map.
    rewrite (rejectedAdds_map (fun m => normalize (schema.withOrgId (auth.OrgId (User ctx)) m))).
    destruct (Publish _); repeat split; reflexivity.
Qed.

End Ingestion.

(** ** Tenant isolation, public copies and rejection *)
Section Batches.
Context {Payload Envelope : Type} {E : Externals Payload Envelope}.
Implicit Types (m : schema.MetricData Payload) (ms : list (schema.MetricData Payload)).
Implicit Types (metrics b : batch Payload) (ctx : Context).
Implicit Types (tr : list (event Payload)).

Local Open Scope list_scope.
Local Open Scope Z_scope.

Lemma lookup_map_Some ms (i : nat) m :
  map Some ms !! i = Some (Some m) -> ms !! i = Some m.
Proof.
  change (map Some ms) with (Some <$> ms). rewrite list_lookup_fmap.
  destruct (ms !! i); cbn; congruence.
Qed.


(** C2: for a caller that is not an admin, every record of a published
    batch has the caller's organization, whatever the body said. *)
Theorem published_org_is_callers ctx metrics tr b :
  decoded ctx metrics tr ->
  auth.IsAdmin (User ctx) = false ->
  In b (published tr) ->
  Forall (fun e => exists m, e = Some m /\
                   schema.OrgId m = auth.OrgId (User ctx)) b.
Proof.
  intros Hdec Hadmin Hin.
  apply decoded_ingest in Hdec as (_ & Hp & _ & _). rewrite Hp in Hin.
  apply ingest_published in Hin as (ms & -> & _ & _ & ->).
  rewrite Hadmin. apply Forall_forall. intros e Hin.
  apply list_elem_of_In, in_map_iff in Hin as (m & <- & _).
  eexists. split; [reflexivity|].
  unfold userSlot, SetId, schema.withId. cbn [schema.OrgId].
  now rewrite OrgId_normalize.
Qed.


(** C4, amended: the first invalid record ends the processing of the
    batch.  The records before it have been validated, none after it;
    the rejected counter gets the length the batch has at that moment,
    which is the number of decoded records plus the copies the admin
    loop has appended for the records before the invalid one; the
    response is 400 with the validation error and nothing is published. *)
Theorem first_invalid_rejects_batch ctx metrics tr ms bad post err :
  decoded ctx metrics tr ->
  metrics = map Some ms ++ Some bad :: post ->
  Forall (fun m => Validate (checked ctx m) = None) ms ->
  Validate (checked ctx bad) = Some err ->
  validated tr = map (checked ctx) ms ++ [checked ctx bad] /\
  rejectedAdds tr = [(length metrics + appendedBy ctx ms)%nat] /\
  responses tr = [(400, JString err)] /\
  published tr = [].
Proof.
  intros Hdec -> Hall Hbad.
  apply decoded_ingest in Hdec as (-> & -> & -> & ->).
  rewrite (ingest_invalid ctx ms bad post err Hall Hbad).
  unfold validated, rejectedAdds, responses, published. rewrite !omap_app.
  fold (validated (map (fun m => EvValidate (checked ctx m)) ms)).
  fold (rejectedAdds (map (fun m => EvValidate (checked ctx m)) ms)).
  fold (responses (map (fun m => EvValidate (checked ctx m)) ms)).
  fold (published (map (fun m => EvValidate (checked ctx m)) ms)).
  rewrite validated_map, rejectedAdds_map, responses_map, published_map.
  repeat split; reflexivity.
Qed.

(** For a caller that is not an admin the amount is the number of
    decoded records. *)
Lemma appendedBy_tenant ctx ms :
  auth.IsAdmin (User ctx) = false -> appendedBy ctx ms = 0%nat.
Proof. unfold appendedBy. now intros ->. Qed.

End Batches.

(** ** The handlers run in the sample world *)
Section Runs.

Local Open Scope list_scope.
Local Open Scope Z_scope.


(** A tenant of organization 7 posts the same body. *)
Lemma published_org_is_callers_witness :
  let ctx := sample.post sample.tenant (sample.bytes "one-public-record") in
  let forced := schema.mkMetricData "7.x" 7 "x" "x" "gauge" [] tt in
  published (metricsJson (E := gw) ctx) = [[Some forced]] /\
  Forall (fun e => exists m, e = Some m /\ schema.OrgId m = 7) [Some forced].
Proof.
  intros ctx forced. split; [reflexivity|].
  apply (published_org_is_callers (E := gw) ctx [Some sample.x]
           (metricsJson (E := gw) ctx) [Some forced]).
  - left. exists (mkReader "one-public-record" None).
    split; [reflexivity|]. split; reflexivity.
  - reflexivity.
  - left. reflexivity.
Defined.



(** C4 as stated fails: the admin's body decodes to two records, the
    second without a name; the copy appended for the first is counted
    too, and the rejected counter gets 3. *)
Lemma rejected_counts_appended_copy :
  let ctx := sample.post sample.admin (sample.bytes "public-then-nameless") in
  let tr := metricsJson (E := gw) ctx in
  Unmarshal (Externals := gw) "public-then-nameless"
    = inr [Some sample.x; Some sample.nameless] /\
  rejectedAdds tr = [3%nat] /\
  responses tr = [(400, JString "name cannot be empty")] /\
  published tr = [].
Proof. repeat split; reflexivity. Qed.

Lemma first_invalid_rejects_batch_witness :
  let ctx := sample.post sample.tenant (sample.bytes "public-then-nameless") in
  let tr := metricsJson (E := gw) ctx in
  validated tr = [schema.mkMetricData EmptyString 7 "x" "x" "gauge" [] tt;
                  schema.mkMetricData EmptyString 7 EmptyString EmptyString "gauge" [] tt] /\
  rejectedAdds tr = [2%nat] /\
  responses tr = [(400, JString "name cannot be empty")] /\
  published tr = [].
Proof.
  intros ctx tr.
  apply (first_invalid_rejects_batch (E := gw) ctx
           [Some sample.x; Some sample.nameless] tr
           [sample.x] sample.nameless [] "name cannot be empty").
  - left. exists (mkReader "public-then-nameless" None).
    split; [reflexivity|]. split; reflexivity.
  - reflexivity.
  - repeat constructor.
  - reflexivity.
Defined.

End Runs.

(** ** Bodies that do not decode, and bodies that are not there *)
Section Bodies.
Context {Payload Envelope : Type} {E : Externals Payload Envelope}.
Implicit Types (ctx : Context).

Local Open Scope list_scope.
Local Open Scope Z_scope.

(** C5, amended: a body the JSON parser rejects is answered 400; a
    binary body that cannot be read, or whose envelope or batch is
    malformed, is answered 500 with the error; nothing is published in
    either case. *)
Theorem decode_failures_answered ctx :
  (forall err,
      jsonParseFails ctx err ->
      responses (metricsJson ctx)
        = [(400, JString ("unable to parse request body. " ++ err)%string)] /\
      published (metricsJson ctx) = []) /\
  (forall compressed err,
      binaryFails ctx compressed err ->
      responses (metricsBinary ctx compressed) = [(500, JError err)] /\
      published (metricsBinary ctx compressed) = []).
Proof.
  split.
  - intros err (rd & Hbody & Hdec). unfold metricsJson. rewrite Hbody, Hdec.
    destruct (readErr rd); split; reflexivity.
  - intros compressed err (rd & Hbody & Hrd & Hfail).
    unfold metricsBinary. rewrite Hrd.
    destruct (Body (Req ctx)); [|congruence].
    destruct Hfail as [Hread | (Hread & [Hinit | (md & Hinit & Hdec)])];
      rewrite Hread; [split; reflexivity|..]; rewrite Hinit.
    + split; reflexivity.
    + rewrite Hdec. split; reflexivity.
Qed.

(** C6, amended: when the request has no body at all the handler of the
    compressed binary format answers 400 "no data included in request."
    and calls no decoder; a body that is there, be it of no bytes, is read
    and handed to the decoder: the JSON parser in any case, the envelope
    parser whenever the read succeeds. *)
Theorem missing_body_no_data ctx :
  (Body (Req ctx) = None ->
   metricsBinary ctx true
     = [EvJSON 400 (JString "no data included in request.")] /\
   decoderCalls (metricsBinary ctx true) = 0%nat) /\
  (forall rd,
      Body (Req ctx) = Some rd ->
      In (EvUnmarshal (data rd)) (metricsJson ctx)) /\
  (forall compressed rd,
      Body (Req ctx) <> None ->
      binaryBody ctx compressed = Some rd ->
      readErr rd = None ->
      In (EvInitFromMsg (data rd)) (metricsBinary ctx compressed)).
Proof.
  split; [|split].
  - intros Hbody. unfold metricsBinary, binaryBody. rewrite Hbody.
    split; reflexivity.
  - intros rd Hbody. unfold metricsJson. rewrite Hbody.
    apply in_or_app. right. now left.
  - intros compressed rd Hbody Hrd Hread. unfold metricsBinary.
    rewrite Hrd. destruct (Body (Req ctx)); [|congruence].
    rewrite Hread. now left.
Qed.

End Bodies.

Section BodyRuns.

Local Open Scope list_scope.
Local Open Scope Z_scope.

(** C5 as stated fails: three bytes are no envelope, a failure of
    parsing, and the answer is 500. *)
Lemma malformed_envelope_is_500 :
  let ctx := sample.send "rt-metric-binary" sample.admin (sample.bytes "abc") in
  InitFromMsg (Externals := gw) "abc" = inl "too small"%string /\
  Metrics (E := gw) ctx
    = [EvInitFromMsg "abc"; EvLog "payload not metricData. %s" "too small";
       EvJSON 500 (JError "too small")].
Proof. split; reflexivity. Qed.

Lemma decode_failures_answered_witness :
  (let ctx := sample.post sample.admin (sample.bytes "[") in
   responses (metricsJson (E := gw) ctx)
     = [(400, JString "unable to parse request body. unexpected end of JSON input")] /\
   published (metricsJson (E := gw) ctx) = []) /\
  (let ctx := sample.send "rt-metric-binary" sample.admin (sample.bytes "abc") in
   responses (metricsBinary (E := gw) ctx false) = [(500, JError "too small")] /\
   published (metricsBinary (E := gw) ctx false) = []).
Proof.
  split.
  - intros ctx.
    apply (proj1 (decode_failures_answered (E := gw) ctx)
             "unexpected end of JSON input"%string).
    exists (mkReader "[" None). split; reflexivity.
  - intros ctx.
    apply (proj2 (decode_failures_answered (E := gw) ctx) false "too small"%string).
    exists (mkReader "abc" None).
    split; [discriminate|]. split; [reflexivity|].
    right. split; [reflexivity|]. left. reflexivity.
Defined.

(** C6 as stated fails: a body of no bytes goes to the JSON parser, and
    the answer is the parser's complaint. *)
Lemma empty_body_reaches_decoder :
  let ctx := sample.post sample.admin (sample.bytes EmptyString) in
  Metrics (E := gw) ctx
    = [EvUnmarshal EmptyString;
       EvJSON 400 (JString "unable to parse request body. unexpected end of JSON input")] /\
  decoderCalls (Metrics (E := gw) ctx) = 1%nat.
Proof. split; reflexivity. Qed.

Lemma missing_body_no_data_witness :
  (let ctx := sample.send "rt-metric-binary-snappy" sample.admin None in
   metricsBinary (E := gw) ctx true
     = [EvJSON 400 (JString "no data included in request.")] /\
   decoderCalls (metricsBinary (E := gw) ctx true) = 0%nat) /\
  (let ctx := sample.post sample.admin (sample.bytes EmptyString) in
   In (EvUnmarshal EmptyString) (metricsJson (E := gw) ctx)) /\
  (let ctx := sample.send "rt-metric-binary" sample.admin (sample.bytes EmptyString) in
   In (EvInitFromMsg EmptyString) (metricsBinary (E := gw) ctx false)).
Proof.
  split; [|split].
  - intros ctx.
    apply (proj1 (missing_body_no_data (E := gw) ctx)). reflexivity.
  - intros ctx.
    apply (proj1 (proj2 (missing_body_no_data (E := gw) ctx)) (mkReader EmptyString None)).
    reflexivity.
  - intros ctx.
    apply (proj2 (proj2 (missing_body_no_data (E := gw) ctx)) false (mkReader EmptyString None)).
    + discriminate.
    + reflexivity.
    + reflexivity.
Defined.

End BodyRuns.

(** ** Authentication *)
Section Authentication.
Context {Payload Envelope : Type} {E : Externals Payload Envelope}.

Local Open Scope list_scope.
Local Open Scope Z_scope.

(** C7: after a successful authentication, an admin whose impersonation
    header parses as an integer other than zero gets that integer as
    organization; any other caller keeps the organization the plugin
    resolved, and so does an admin whose header is absent, does not parse
    or is zero. *)
Theorem impersonation_admin_only (ctx : Context) key user :
  getApiKey ctx = Returns (key, None) ->
  key <> EmptyString ->
  authPlugin key = inr user ->
  let header := Header (Req ctx) "X-Tsdb-Org" in
  exists user',
    Auth (Payload := Payload) ctx = ([], Some user') /\
    (auth.IsAdmin user = true ->
     forall n, strconv.ParseInt header = inr n -> n <> 0 ->
               user' = auth.mkUser n true) /\
    (auth.IsAdmin user = false -> user' = user) /\
    (auth.IsAdmin user = true ->
     header = EmptyString \/ (exists e, strconv.ParseInt header = inl e)
     \/ strconv.ParseInt header = inr 0 ->
     user' = user).
Proof.
  intros Hkey Hne Hauth header. unfold Auth. rewrite Hkey.
  apply String.eqb_neq in Hne. rewrite Hne, Hauth.
  eexists. split; [reflexivity|]. fold header. split; [|split].
  - intros Hadmin n Hparse Hn. rewrite Hadmin, Hparse.
    destruct (String.eqb header EmptyString) eqn:Hempty.
    + apply String.eqb_eq in Hempty. rewrite Hempty in Hparse. discriminate.
    + apply Z.eqb_neq in Hn. now rewrite Hn.
  - now intros ->.
  - intros Hadmin Hcase. rewrite Hadmin.
    destruct (String.eqb header EmptyString) eqn:Hempty; [reflexivity|]. cbn [negb].
    destruct Hcase as [Hh | [[e Hparse] | Hparse]].
    + apply String.eqb_neq in Hempty. contradiction.
    + now rewrite Hparse.
    + now rewrite Hparse.
Qed.

(** C10: there is a well-formed header, [Basic] followed by the base64
    of [api_key] without colon, on which [getApiKey] indexes element 1
    of a split of one element: it panics, and so does [Auth], which
    therefore does not answer 401. *)
Theorem basic_without_colon_panics :
  exists ctx : Context,
    Header (Req ctx) "Authorization" = "Basic YXBpX2tleQ=="%string /\
    base64.DecodeString "YXBpX2tleQ==" = Some "api_key"%string /\
    strings.SplitN "api_key" ":" 2 = ["api_key"%string] /\
    getApiKey ctx = Panics "index out of range" /\
    Auth (Payload := Payload) ctx = ([EvPanic "index out of range"], None).
Proof.
  exists (sample.login "Basic YXBpX2tleQ==" EmptyString).
  repeat split; reflexivity.
Qed.

End Authentication.

(** ** The search proxy *)
Section Proxy.
Context {Payload Envelope : Type} {E : Externals Payload Envelope}.

Local Open Scope list_scope.
Local Open Scope Z_scope.

(** C8, amended: a GET of the statistics of the index of the day, the
    day being the one of the gateway's local clock, is answered 200 "ok"
    and the cluster is not called; a POST to [_msearch] goes to the proxy
    with the caller's organization; anything else is answered 404. *)
Theorem proxy_routes (now : time.Time) (c : Context) :
  let stats := (idxDate now ++ "/_stats")%string in
  (Method (Req c) = "GET"%string -> Params c "*" = stats ->
   ElasticsearchProxy (Payload := Payload) now c = [EvJSON 200 (JString "ok")]) /\
  (Method (Req c) = "POST"%string -> Params c "*" = "_msearch"%string ->
   ElasticsearchProxy (Payload := Payload) now c = [EvProxy (auth.OrgId (User c))]) /\
  (~ (Method (Req c) = "GET"%string /\ Params c "*" = stats) ->
   ~ (Method (Req c) = "POST"%string /\ Params c "*" = "_msearch"%string) ->
   ElasticsearchProxy (Payload := Payload) now c = [EvJSON 404 (JString "Not Found")]).
Proof.
  intros stats. unfold ElasticsearchProxy. fold stats. split; [|split].
  - intros -> ->. rewrite !String.eqb_refl. reflexivity.
  - intros -> ->. reflexivity.
  - intros Hget Hpost.
    destruct (String.eqb (Method (Req c)) "GET" && String.eqb (Params c "*") stats)
      eqn:H1.
    { apply andb_prop in H1 as [?%String.eqb_eq ?%String.eqb_eq]. tauto. }
    destruct (String.eqb (Method (Req c)) "POST" && String.eqb (Params c "*") "_msearch")
      eqn:H2.
    { apply andb_prop in H2 as [?%String.eqb_eq ?%String.eqb_eq]. tauto. }
    reflexivity.
Qed.

End Proxy.

Section AccessRuns.

Local Open Scope list_scope.
Local Open Scope Z_scope.

Lemma impersonation_admin_only_witness :
  exists user',
    Auth (E := gw) (sample.login "Bearer admin-key" "42") = ([], Some user') /\
    user' = auth.mkUser 42 true.
Proof.
  destruct (impersonation_admin_only (E := gw)
              (sample.login "Bearer admin-key" "42") "admin-key"
              (auth.mkUser 1 true) eq_refl)
    as (user' & Hrun & Hadmin & _ & _).
  - discriminate.
  - reflexivity.
  - exists user'. split; [exact Hrun|].
    apply (Hadmin eq_refl 42); [reflexivity|lia].
Defined.

(** C8 as stated fails: at one o'clock UTC on 2024-01-01, on a gateway
    five hours west of Greenwich, the statistics of the index of the
    UTC day are not found. *)
Lemma utc_day_not_served :
  let now := {| time.unix := 1704070800; time.offset := -18000 |} in
  let c := sample.route "GET" "idx-2024-01-01/_stats" sample.tenant in
  Method (Req c) = "GET"%string /\
  Params c "*" = (idxDate (E := gw) (time.UTC now) ++ "/_stats")%string /\
  ElasticsearchProxy (E := gw) now c = [EvJSON 404 (JString "Not Found")].
Proof. repeat split; reflexivity. Qed.

Lemma proxy_routes_witness :
  let now := {| time.unix := 1704070800; time.offset := -18000 |} in
  idxDate (E := gw) now = "idx-2023-12-31"%string /\
  ElasticsearchProxy (E := gw) now
    (sample.route "GET" "idx-2023-12-31/_stats" sample.tenant)
    = [EvJSON 200 (JString "ok")] /\
  ElasticsearchProxy (E := gw) now (sample.route "POST" "_msearch" sample.tenant)
    = [EvProxy 7] /\
  ElasticsearchProxy (E := gw) now (sample.route "GET" "_msearch" sample.tenant)
    = [EvJSON 404 (JString "Not Found")].
Proof.
  intros now. split; [reflexivity|]. split; [|split].
  - apply (proj1 (proxy_routes (E := gw) now
                    (sample.route "GET" "idx-2023-12-31/_stats" sample.tenant)));
      reflexivity.
  - apply (proj1 (proj2 (proxy_routes (E := gw) now
                    (sample.route "POST" "_msearch" sample.tenant))));
      reflexivity.
  - apply (proj2 (proj2 (proxy_routes (E := gw) now
                    (sample.route "GET" "_msearch" sample.tenant)))).
    + intros [_ H]. discriminate H.
    + intros [H _]. discriminate H.
Defined.

End AccessRuns.

(** * Further properties of the handlers *)

(** Reads the fields of a record through [SetId] and [withOrgId]. *)
Ltac fields :=
  unfold SetId, schema.withId, schema.withOrgId;
  cbn [schema.Metric schema.Name schema.Tags schema.Mtype schema.Rest schema.OrgId].


(** ** How a loop over a batch can end *)
Section LoopEnds.
Context {Payload Envelope : Type} {E : Externals Payload Envelope}.
Implicit Types (m : schema.MetricData Payload) (ms vs : list (schema.MetricData Payload)).
Implicit Types (rest done extra metrics : batch Payload).

Local Open Scope list_scope.

Lemma loopEnd_step k v (tr : list (event Payload)) (r : option (batch Payload)) :
  loopEnd k (tr, r) -> loopEnd (S k) (EvValidate v :: tr, r).
Proof.
  intros (vs & [(res & [= -> ->] & Hl) | [(w & n & err & [= -> ->] & Hl)
                                        | (msg & [= -> ->] & Hl)]]);
    exists (v :: vs); cbn [map length app].
  - left. exists res. split; [reflexivity|lia].
  - right. left. exists w, n, err. split; [reflexivity|lia].
  - right. right. exists msg. split; [reflexivity|lia].
Qed.

Lemma rangeUser_end orgId k : forall i metrics, loopEnd k (rangeUser orgId k i metrics).
Proof.
  induction k as [|k IH]; intros i metrics.
  - exists []. left. exists metrics. split; reflexivity.
  - cbn [rangeUser]. destruct (metrics !! i) as [[m|]|].
    + destruct (Validate _) eqn:Hv.
      * exists []. right. left. do 3 eexists. split; [reflexivity|cbn; lia].
      * match goal with |- context [rangeUser orgId k ?j ?l] =>
          specialize (IH j l); destruct (rangeUser orgId k j l) end.
        now apply loopEnd_step.
    + exists []. right. right. eexists. split; [reflexivity|cbn; lia].
    + exists []. right. right. eexists. split; [reflexivity|cbn; lia].
Qed.

Lemma rangeAdmin_end k : forall i metrics, loopEnd k (rangeAdmin k i metrics).
Proof.
  induction k as [|k IH]; intros i metrics.
  - exists []. left. exists metrics. split; reflexivity.
  - cbn [rangeAdmin]. destruct (metrics !! i) as [[m|]|].
    + destruct (Validate _) eqn:Hv.
      * exists []. right. left. do 3 eexists. split; [reflexivity|cbn; lia].
      * destruct (_ && _)%bool;
          match goal with |- context [rangeAdmin k ?j ?l] =>
            specialize (IH j l); destruct (rangeAdmin k j l) end;
          now apply loopEnd_step.
    + exists []. right. right. eexists. split; [reflexivity|cbn; lia].
    + exists []. right. right. eexists. split; [reflexivity|cbn; lia].
Qed.

(** A nil entry after valid records only: the loop panics on it. *)
Lemma rangeUser_nil orgId ms : forall done post,
  Forall (fun m => Validate (normalize (schema.withOrgId orgId m)) = None) ms ->
  rangeUser orgId (length (map Some ms ++ None :: post)) (length done)
    (done ++ map Some ms ++ None :: post)
  = (map (fun m => EvValidate (normalize (schema.withOrgId orgId m))) ms ++
     [EvPanic "nil pointer dereference"], None).
Proof.
  induction ms as [|m ms IH]; intros done post Hall.
  - cbn [map app length rangeUser]. now rewrite list_lookup_middle by reflexivity.
  - apply Forall_cons in Hall as [Hm Hall].
    cbn [map app length rangeUser]. rewrite list_lookup_middle by reflexivity.
    fold (normalize (schema.withOrgId orgId m)). rewrite Hm.
    rewrite insert_middle.
    match goal with
    | |- context [ (?d ++ [?y]) ++ _ ] => rewrite <- (length_snoc d y)
    end.
    now rewrite (IH _ _ Hall).
Qed.

Lemma rangeAdmin_nil ms : forall done post extra,
  Forall (fun m => Validate (normalize m) = None) ms ->
  rangeAdmin (length (map Some ms ++ None :: post)) (length done)
    (done ++ (map Some ms ++ None :: post) ++ extra)
  = (map (fun m => EvValidate (normalize m)) ms ++
     [EvPanic "nil pointer dereference"], None).
Proof.
  induction ms as [|m ms IH]; intros done post extra Hall.
  - cbn [map app length rangeAdmin]. now rewrite list_lookup_middle by reflexivity.
  - apply Forall_cons in Hall as [Hm Hall].
    cbn [map app length rangeAdmin]. rewrite list_lookup_middle by reflexivity.
    fold (normalize m). rewrite Hm.
    destruct (_ && _)%bool.
    + rewrite snoc_extra, insert_middle.
      match goal with
      | |- context [ (?d ++ [?y]) ++ _ ] => rewrite <- (length_snoc d y)
      end.
      now rewrite (IH _ _ _ Hall).
    + rewrite insert_middle.
      match goal with
      | |- context [ (?d ++ [?y]) ++ _ ] => rewrite <- (length_snoc d y)
      end.
      now rewrite (IH _ _ _ Hall).
Qed.

End LoopEnds.

(** ** How a run of an ingestion handler ends *)
Section Runs2.
Context {Payload Envelope : Type} {E : Externals Payload Envelope}.
Implicit Types (m : schema.MetricData Payload) (ms vs : list (schema.MetricData Payload)).
Implicit Types (metrics b : batch Payload) (ctx : Context).
Implicit Types (tr pre : list (event Payload)).

Local Open Scope list_scope.
Local Open Scope Z_scope.

Lemma responses_validates vs : responses (map EvValidate vs) = [].
Proof. induction vs; [reflexivity|assumption]. Qed.

Lemma published_validates vs : published (map EvValidate vs) = [].
Proof. induction vs; [reflexivity|assumption]. Qed.

Lemma panicked_validates vs : panicked (map EvValidate vs) = false.
Proof. induction vs; [reflexivity|assumption]. Qed.

Lemma validated_validates vs : validated (map EvValidate vs) = vs.
Proof. induction vs as [|v vs IH]; [reflexivity|]. cbn. now f_equal. Qed.

Lemma responses_app tr1 tr2 : responses (tr1 ++ tr2) = responses tr1 ++ responses tr2.
Proof. apply omap_app. Qed.

Lemma published_app tr1 tr2 : published (tr1 ++ tr2) = published tr1 ++ published tr2.
Proof. apply omap_app. Qed.

Lemma panicked_app tr1 tr2 : panicked (tr1 ++ tr2) = panicked tr1 || panicked tr2.
Proof. apply existsb_app. Qed.

Lemma endsWell_cons (e : event Payload) tr :
  match e with EvJSON _ _ | EvPanic _ | EvPublish _ => False | _ => True end ->
  endsWell tr -> endsWell (e :: tr).
Proof.
  intros He [(pre & st & v & -> & Hr & Hp) | (pre & msg & -> & Hr & Hpub & Hp)].
  - left. exists (e :: pre), st, v. split; [reflexivity|].
    destruct e; try contradiction; split; assumption.
  - right. exists (e :: pre), msg. split; [reflexivity|].
    destruct e; try contradiction; repeat split; assumption.
Qed.

Lemma ingest_endsWell ctx metrics : endsWell (ingest ctx metrics).
Proof.
  unfold ingest.
  assert (Hend : loopEnd (length metrics)
            (if auth.IsAdmin (User ctx)
             then rangeAdmin (length metrics) 0 metrics
             else rangeUser (auth.OrgId (User ctx)) (length metrics) 0 metrics)).
  { destruct (auth.IsAdmin (User ctx)); [apply rangeAdmin_end|apply rangeUser_end]. }
  destruct (if auth.IsAdmin (User ctx) then _ else _) as [tr r].
  destruct Hend as (vs & [(res & [= -> ->] & _) | [(w & n & err & [= -> ->] & _)
                                                | (msg & [= -> ->] & _)]]).
  - left. destruct (Publish res) as [err|].
    + exists (map EvValidate vs ++
              [EvValidAdd (length res); EvPublish res;
               EvLog "failed to publish metrics. %s" err]), 500, (JError err).
      split; [now rewrite <- !app_assoc|].
      rewrite responses_app, panicked_app, responses_validates, panicked_validates.
      split; reflexivity.
    + exists (map EvValidate vs ++ [EvValidAdd (length res); EvPublish res]),
        200, (JString "ok").
      split; [now rewrite <- !app_assoc|].
      rewrite responses_app, panicked_app, responses_validates, panicked_validates.
      split; reflexivity.
  - left. exists (map EvValidate vs ++ [EvValidate w; EvRejectedAdd n]),
      400, (JString err).
    split; [now rewrite <- !app_assoc|].
    rewrite responses_app, panicked_app, responses_validates, panicked_validates.
    split; reflexivity.
  - right. exists (map EvValidate vs), msg. split; [reflexivity|].
    rewrite responses_validates, published_validates, panicked_validates.
    repeat split.
Qed.

(** X1: a declared content type that is none of the three the gateway
    knows is answered 400 with the type named; nothing is read, decoded,
    validated, counted or published. *)
Theorem unknown_content_type ctx :
  let contentType := Header (Req ctx) "Content-Type" in
  contentType <> "rt-metric-binary"%string ->
  contentType <> "rt-metric-binary-snappy"%string ->
  contentType <> "application/json"%string ->
  Metrics ctx = [EvJSON 400 (JString ("unknown content-type: " ++ contentType)%string)].
Proof.
  intros contentType H1 H2 H3. unfold Metrics. fold contentType.
  apply String.eqb_neq in H1, H2, H3. now rewrite H1, H2, H3.
Qed.

(** X2: whatever the request, a run of [Metrics] ends with its only
    response, or it ends with a panic before anything was answered or
    published. *)
Theorem Metrics_answers_once ctx : endsWell (Metrics ctx).
Proof.
  unfold Metrics.
  destruct (String.eqb _ "rt-metric-binary");
    [|destruct (String.eqb _ "rt-metric-binary-snappy");
      [|destruct (String.eqb _ "application/json")]].
  1,2: unfold metricsBinary;
       destruct (binaryBody ctx _) as [rd|];
         [|right; exists [], "nil pointer dereference"%string; repeat split];
       (destruct (Body (Req ctx));
         [|left; exists [], 400, (JString "no data included in request.");
           repeat split]);
       (destruct (readErr rd) as [err|];
         [left; exists [EvLog "unable to read request body. %s" err], 500, (JError err);
          repeat split|]);
       apply endsWell_cons; [exact I|];
       (destruct (InitFromMsg (data rd)) as [err|md];
         [left; exists [EvLog "payload not metricData. %s" err], 500, (JError err);
          repeat split|]);
       apply endsWell_cons; [exact I|];
       (destruct (DecodeMetricData md) as [err|metrics];
         [left; exists [EvLog "failed to unmarshal metricData. %s" err], 500, (JError err);
          repeat split|]);
       apply ingest_endsWell.
  - unfold metricsJson. destruct (Body (Req ctx)) as [rd|];
      [|right; exists [], "nil pointer dereference"%string; repeat split].
    assert (Hrest : endsWell
              (EvUnmarshal (data rd) ::
               match Unmarshal (data rd) with
               | inl err =>
                   [EvJSON 400 (JString ("unable to parse request body. " ++ err)%string)]
               | inr metrics => ingest ctx metrics
               end)).
    { apply endsWell_cons; [exact I|].
      destruct (Unmarshal (data rd)) as [err|metrics]; [|apply ingest_endsWell].
      left. exists [], 400, (JString ("unable to parse request body. " ++ err)%string).
      repeat split. }
    destruct (readErr rd); [|exact Hrest].
    cbn [app]. apply endsWell_cons; [exact I|exact Hrest].
  - left. eexists [], 400, _. repeat split.
Qed.

End Runs2.

(** ** What is published, and in which form *)
Section Published.
Context {Payload Envelope : Type} {E : Externals Payload Envelope}.
Implicit Types (m r : schema.MetricData Payload) (ms : list (schema.MetricData Payload)).
Implicit Types (metrics b : batch Payload) (ctx : Context).
Implicit Types (tr : list (event Payload)).

Local Open Scope list_scope.
Local Open Scope Z_scope.

Lemma normalize_fields m :
  schema.Metric (normalize m) = schema.Name m /\
  schema.Name (normalize m) = schema.Name m /\
  schema.Tags (normalize m) = [] /\
  schema.Mtype (normalize m) <> EmptyString /\
  schema.Rest (normalize m) = schema.Rest m.
Proof.
  unfold normalize, defaultMtype. cbn.
  destruct (String.eqb (schema.Mtype m) EmptyString) eqn:Hm; cbn; repeat split.
  - discriminate.
  - now apply String.eqb_neq.
Qed.

Lemma panicked_In msg tr : In (EvPanic msg) tr -> panicked tr = true.
Proof.
  intros Hin. apply existsb_exists. exists (EvPanic msg). split; [assumption|reflexivity].
Qed.

Lemma validAdds_map (f : schema.MetricData Payload -> schema.MetricData Payload) ms :
  validAdds (map (fun m => EvValidate (f m)) ms) = [].
Proof. induction ms as [|m ms IH]; [reflexivity|]. exact IH. Qed.

Lemma decoded_validAdds ctx metrics tr :
  decoded ctx metrics tr -> validAdds tr = validAdds (ingest ctx metrics).
Proof.
  intros [(rd & Hbody & Hdec & ->) | (c & rd & md & Hbody & Hrd & Herr & Hinit & Hdec & ->)].
  - unfold metricsJson. rewrite Hbody, Hdec.
    unfold validAdds. rewrite !omap_app. now destruct (readErr rd).
  - unfold metricsBinary. rewrite Hrd.
    destruct (Body (Req ctx)); [|congruence].
    now rewrite Herr, Hinit, Hdec.
Qed.

(** The batch the caller's loop leaves for decoded valid records. *)
Lemma ingest_valid_trace ctx ms :
  Forall (fun m => Validate (checked ctx m) = None) ms ->
  exists b,
    b = (if auth.IsAdmin (User ctx)
         then map (fun m => Some (adminSlot m)) ms
                ++ map Some (flat_map adminAppended ms)
         else map (fun m => Some (userSlot (auth.OrgId (User ctx)) m)) ms) /\
    ingest ctx (map Some ms)
    = map (fun m => EvValidate (checked ctx m)) ms ++
      [EvValidAdd (length b); EvPublish b] ++
      match Publish b with
      | Some err => [EvLog "failed to publish metrics. %s" err; EvJSON 500 (JError err)]
      | None => [EvJSON 200 (JString "ok")]
      end.
Proof.
  unfold ingest, checked. destruct (auth.IsAdmin (User ctx)); intros Hall.
  - pose proof (rangeAdmin_valid ms [] [] Hall) as Hloop.
    cbn [app length] in Hloop. rewrite app_nil_r in Hloop. rewrite Hloop.
    eexists. split; reflexivity.
  - pose proof (rangeUser_valid (auth.OrgId (User ctx)) ms [] Hall) as Hloop.
    cbn [app length] in Hloop. rewrite Hloop.
    eexists. split; reflexivity.
Qed.

(** X3: every entry of a published batch is a record in the gateway's
    normal form: the publish name is the submitted name, there are no tags
    and the type is not empty.  This holds for either kind of caller and
    also for the copies an admin's batch has got. *)
Theorem published_records_normalized ctx metrics tr b :
  decoded ctx metrics tr ->
  In b (published tr) ->
  Forall (fun e => exists r, e = Some r /\
                   schema.Metric r = schema.Name r /\
                   schema.Tags r = [] /\
                   schema.Mtype r <> EmptyString) b.
Proof.
  intros Hdec Hin.
  apply decoded_ingest in Hdec as (_ & Hp & _ & _). rewrite Hp in Hin.
  apply ingest_published in Hin as (ms & -> & _ & _ & ->).
  apply Forall_forall. intros e He. apply list_elem_of_In in He.
  destruct (auth.IsAdmin (User ctx)).
  - apply in_app_or in He as [He|He].
    + apply in_map_iff in He as (m & <- & _). eexists. split; [reflexivity|].
      destruct (normalize_fields m) as (H1 & H2 & H3 & H4 & _).
      unfold adminSlot. destruct (isPublic _); fields; rewrite H1, H2, H3; auto.
    + apply in_map_iff in He as (r & <- & Hr).
      apply in_flat_map in Hr as (m & _ & Hr).
      unfold adminAppended in Hr. destruct (isPublic _); [|destruct Hr].
      destruct Hr as [<-|[]]. eexists. split; [reflexivity|].
      destruct (normalize_fields m) as (H1 & H2 & H3 & H4 & _).
      fields. rewrite H1, H2, H3. auto.
  - apply in_map_iff in He as (m & <- & _). eexists. split; [reflexivity|].
    destruct (normalize_fields (schema.withOrgId (auth.OrgId (User ctx)) m))
      as (H1 & H2 & H3 & H4 & _).
    unfold userSlot, SetId, schema.withId.
    cbn [schema.Metric schema.Name schema.Tags schema.Mtype].
    rewrite H1, H2, H3. auto.
Qed.

(** X4: a decoded batch of valid records is handed to the publisher once
    and whole, no record is lost, and the valid counter gets the length of
    what is handed over before the publisher is called: it is counted also
    when the publisher fails, and then the answer is 500 with its error,
    200 "ok" otherwise. *)
Theorem valid_batch_published ctx ms tr :
  decoded ctx (map Some ms) tr ->
  Forall (fun m => Validate (checked ctx m) = None) ms ->
  exists b,
    published tr = [b] /\
    validAdds tr = [length b] /\
    rejectedAdds tr = [] /\
    (length ms <= length b)%nat /\
    responses tr = [match Publish b with
                    | Some err => (500, JError err)
                    | None => (200, JString "ok")
                    end].
Proof.
  intros Hdec Hall.
  pose proof (decoded_validAdds _ _ _ Hdec) as Hva.
  apply decoded_ingest in Hdec as (Hr & Hp & Hrej & _).
  destruct (ingest_valid_trace ctx ms Hall) as (b & Hb & Htr).
  exists b. rewrite Hr, Hp, Hrej, Hva, Htr.
  unfold published, validAdds, rejectedAdds, responses. rewrite !omap_app.
  fold (published (map (fun m => EvValidate (checked ctx m)) ms)).
  fold (validAdds (map (fun m => EvValidate (checked ctx m)) ms)).
  fold (rejectedAdds (map (fun m => EvValidate (checked ctx m)) ms)).
  fold (responses (map (fun m => EvValidate (checked ctx m)) ms)).
  rewrite published_map, validAdds_map, rejectedAdds_map, responses_map.
  assert (Hlen : (length ms <= length b)%nat).
  { rewrite Hb. destruct (auth.IsAdmin (User ctx)).
    - rewrite length_app, length_map. lia.
    - now rewrite length_map. }
  destruct (Publish b); repeat split; auto.
Qed.

(** X5: a nil entry in the decoded batch, after valid records only, makes
    the handler panic when the loop comes to it: the records before it
    have been validated, nothing is answered, counted or published. *)
Theorem nil_entry_panics ctx metrics tr ms post :
  decoded ctx metrics tr ->
  metrics = map Some ms ++ None :: post ->
  Forall (fun m => Validate (checked ctx m) = None) ms ->
  validated tr = map (checked ctx) ms /\
  panicked tr = true /\
  responses tr = [] /\ published tr = [] /\
  rejectedAdds tr = [] /\ validAdds tr = [].
Proof.
  intros Hdec -> Hall.
  assert (Htr : ingest ctx (map Some ms ++ None :: post)
                = map (fun m => EvValidate (checked ctx m)) ms ++
                  [EvPanic "nil pointer dereference"]).
  { unfold ingest, checked in *. destruct (auth.IsAdmin (User ctx)).
    - pose proof (rangeAdmin_nil ms [] post [] Hall) as Hloop.
      cbn [app length] in Hloop. rewrite app_nil_r in Hloop. now rewrite Hloop.
    - pose proof (rangeUser_nil (auth.OrgId (User ctx)) ms [] post Hall) as Hloop.
      cbn [app length] in Hloop. now rewrite Hloop. }
  assert (Hpan : panicked tr = true).
  { destruct Hdec as [(rd & Hbody & Hd & ->)
                     | (c & rd & md & Hbody & Hrd & Herr & Hinit & Hd & ->)].
    - unfold metricsJson. rewrite Hbody, Hd, Htr.
      apply (panicked_In "nil pointer dereference").
      apply in_or_app. right. right. apply in_or_app. right. now left.
    - unfold metricsBinary. rewrite Hrd.
      destruct (Body (Req ctx)); [|congruence].
      rewrite Herr, Hinit, Hd, Htr.
      apply (panicked_In "nil pointer dereference").
      right. right. apply in_or_app. right. now left. }
  pose proof (decoded_validAdds _ _ _ Hdec) as Hva.
  apply decoded_ingest in Hdec as (Hr & Hp & Hrej & Hv).
  rewrite Hr, Hp, Hrej, Hv, Hva, Htr.
  unfold published, validAdds, rejectedAdds, responses, validated.
  rewrite !omap_app.
  fold (published (map (fun m => EvValidate (checked ctx m)) ms)).
  fold (validAdds (map (fun m => EvValidate (checked ctx m)) ms)).
  fold (rejectedAdds (map (fun m => EvValidate (checked ctx m)) ms)).
  fold (responses (map (fun m => EvValidate (checked ctx m)) ms)).
  fold (validated (map (fun m => EvValidate (checked ctx m)) ms)).
  rewrite published_map, validAdds_map, rejectedAdds_map, responses_map, validated_map.
  cbn. rewrite app_nil_r. repeat split; auto.
Qed.

End Published.

(** ** Order, organizations and the two ways to read a body *)
Section Published2.
Context {Payload Envelope : Type} {E : Externals Payload Envelope}.
Implicit Types (m r : schema.MetricData Payload) (ms : list (schema.MetricData Payload)).
Implicit Types (metrics b : batch Payload) (ctx : Context).
Implicit Types (tr : list (event Payload)).

Local Open Scope list_scope.
Local Open Scope Z_scope.

Lemma lookup_map_slot (f : schema.MetricData Payload -> schema.MetricData Payload)
    ms (l : batch Payload) (i : nat) m :
  ms !! i = Some m ->
  (map (fun m => Some (f m)) ms ++ l) !! i = Some (Some (f m)).
Proof.
  intros Hi. rewrite lookup_app_l by (rewrite length_map; eapply lookup_lt_Some; eauto).
  change (map (fun m => Some (f m)) ms) with ((fun m => Some (f m)) <$> ms).
  now rewrite list_lookup_fmap, Hi.
Qed.

(** X6: an admin's record that is not public (its organization is not
    -1, or no public organization is configured) is published at its own
    index with the organization it was submitted with; and without a
    public organization the published batch has the length of the decoded
    one. *)
Theorem admin_keeps_organization ctx metrics tr b :
  decoded ctx metrics tr ->
  auth.IsAdmin (User ctx) = true ->
  In b (published tr) ->
  (forall (i : nat) m,
      metrics !! i = Some (Some m) -> isPublic m = false ->
      exists r, b !! i = Some (Some r) /\
                schema.OrgId r = schema.OrgId m /\
                schema.Id r = computeId (normalize m)) /\
  (publicOrgId = -1 -> length b = length metrics).
Proof.
  intros Hdec Hadmin Hin.
  apply decoded_ingest in Hdec as (_ & Hp & _ & _). rewrite Hp in Hin.
  apply ingest_published in Hin as (ms & -> & _ & _ & ->).
  rewrite Hadmin. split.
  - intros i m Hi Hpub. apply lookup_map_Some in Hi.
    exists (adminSlot m). split; [now apply lookup_map_slot|].
    unfold adminSlot. rewrite isPublic_identified, Hpub.
    split; [|reflexivity].
    unfold SetId, schema.withId. cbn [schema.OrgId]. apply OrgId_normalize.
  - intros Hnone. rewrite length_app, !length_map.
    assert (Hno : flat_map adminAppended ms = []).
    { clear -Hnone. induction ms as [|m ms IH]; [reflexivity|].
      cbn [flat_map]. rewrite IH, app_nil_r.
      unfold adminAppended, isPublic.
      replace (publicOrgId =? -1) with true by (symmetry; now apply Z.eqb_eq).
      now rewrite andb_false_r. }
    rewrite Hno. cbn. lia.
Qed.

(** X7: the published batch keeps the order of the decoded one: the record
    decoded at an index is published at that index, under the name it was
    submitted with and with the fields the gateway does not touch. *)
Theorem published_in_order ctx metrics tr b (i : nat) m :
  decoded ctx metrics tr ->
  In b (published tr) ->
  metrics !! i = Some (Some m) ->
  exists r, b !! i = Some (Some r) /\
            schema.Name r = schema.Name m /\
            schema.Metric r = schema.Name m /\
            schema.Rest r = schema.Rest m.
Proof.
  intros Hdec Hin Hi.
  apply decoded_ingest in Hdec as (_ & Hp & _ & _). rewrite Hp in Hin.
  apply ingest_published in Hin as (ms & -> & _ & _ & ->).
  apply lookup_map_Some in Hi.
  destruct (auth.IsAdmin (User ctx)).
  - exists (adminSlot m). split; [now apply lookup_map_slot|].
    destruct (normalize_fields m) as (H1 & H2 & _ & _ & H5).
    unfold adminSlot. destruct (isPublic _); fields; rewrite H1, H2, H5; auto.
  - exists (userSlot (auth.OrgId (User ctx)) m). split.
    + rewrite <- (app_nil_r (map _ ms)). now apply lookup_map_slot.
    + destruct (normalize_fields (schema.withOrgId (auth.OrgId (User ctx)) m))
        as (H1 & H2 & _ & _ & H5).
      unfold userSlot, SetId, schema.withId.
      cbn [schema.Metric schema.Name schema.Rest].
      rewrite H1, H2, H5. auto.
Qed.

(** X8: whatever the batch, no more records are validated than were
    decoded. *)
Theorem validated_at_most_decoded ctx metrics tr :
  decoded ctx metrics tr ->
  (length (validated tr) <= length metrics)%nat.
Proof.
  intros Hdec. apply decoded_ingest in Hdec as (_ & _ & _ & ->). clear tr.
  unfold ingest.
  assert (Hend : loopEnd (length metrics)
            (if auth.IsAdmin (User ctx)
             then rangeAdmin (length metrics) 0 metrics
             else rangeUser (auth.OrgId (User ctx)) (length metrics) 0 metrics)).
  { destruct (auth.IsAdmin (User ctx)); [apply rangeAdmin_end|apply rangeUser_end]. }
  destruct (if auth.IsAdmin (User ctx) then _ else _) as [tr r].
  destruct Hend as (vs & [(res & [= -> ->] & Hl) | [(w & n & err & [= -> ->] & Hl)
                                                 | (msg & [= -> ->] & Hl)]]);
    unfold validated; rewrite ?omap_app; fold (validated (map EvValidate vs));
    rewrite validated_validates.
  - destruct (Publish res); cbn; rewrite app_nil_r; lia.
  - cbn. rewrite length_app. cbn. lia.
  - cbn. rewrite app_nil_r. lia.
Qed.


(** X10: a failure to read the body does not stop the JSON handler: the
    error is logged and what was read is parsed and processed as if the
    read had succeeded. *)
Theorem json_read_error_ignored ctx rd err :
  Body (Req ctx) = Some rd ->
  readErr rd = Some err ->
  metricsJson ctx
  = EvLog "unable to read request body. %s" err ::
    metricsJson
      (mkContext (mkRequest (Method (Req ctx)) (Header (Req ctx))
                            (Some (mkReader (data rd) None)))
                 (Params ctx) (User ctx)).
Proof.
  intros Hbody Herr. unfold metricsJson. rewrite Hbody, Herr.
  cbn [Body Req data readErr app].
  destruct (Unmarshal (data rd)); reflexivity.
Qed.

End Published2.

(** ** Splitting at the first separator *)
Section Splitting.

Local Open Scope list_scope.

Lemma substring_whole s : String.substring 0 (String.length s) s = s.
Proof. induction s as [|x s IH]; [reflexivity|]. cbn. now rewrite IH. Qed.

Lemma append_cons x a t : (String x a ++ t)%string = String x (a ++ t)%string.
Proof. reflexivity. Qed.

Lemma append_nil t : (EmptyString ++ t)%string = t.
Proof. reflexivity. Qed.

Lemma substring_head a t : String.substring 0 (String.length a) (a ++ t)%string = a.
Proof.
  induction a as [|x a IH].
  - rewrite append_nil. now destruct t.
  - rewrite append_cons. cbn [String.length String.substring]. now rewrite IH.
Qed.

Lemma substring_tail a t n :
  String.substring (String.length a + n) (String.length t - n) (a ++ t)%string
  = String.substring n (String.length t - n) t.
Proof.
  induction a as [|x a IH]; [reflexivity|].
  rewrite append_cons. cbn [String.length String.substring Nat.add]. exact IH.
Qed.

Lemma length_append a t :
  String.length (a ++ t)%string = String.length a + String.length t.
Proof.
  induction a as [|x a IH]; [reflexivity|].
  rewrite append_cons. cbn [String.length Nat.add]. now rewrite IH.
Qed.

(** The first occurrence of a one-byte separator. *)
Lemma Index_single_None c s :
  strings.mentions c s = false -> strings.Index s (String c EmptyString) = None.
Proof.
  induction s as [|x s IH]; [reflexivity|].
  cbn [strings.mentions]. intros [Hx Hs]%orb_false_elim.
  cbn [strings.Index]. rewrite prefix_single, Hx, (IH Hs). reflexivity.
Qed.

Lemma Index_single_Some c a t :
  strings.mentions c a = false ->
  strings.Index (a ++ String c t)%string (String c EmptyString) = Some (String.length a).
Proof.
  induction a as [|x a IH].
  - intros _. rewrite append_nil. cbn [strings.Index].
    now rewrite prefix_single, Ascii.eqb_refl.
  - cbn [strings.mentions]. intros [Hx Ha]%orb_false_elim.
    rewrite append_cons. cbn [strings.Index].
    rewrite prefix_single, Hx, (IH Ha). reflexivity.
Qed.

Lemma Index_single_inv c s n :
  strings.Index s (String c EmptyString) = Some n ->
  exists a t, s = (a ++ String c t)%string /\ strings.mentions c a = false.
Proof.
  revert n. induction s as [|x s IH]; intros n; [discriminate|].
  cbn [strings.Index]. rewrite prefix_single.
  destruct (Ascii.eqb x c) eqn:Hx.
  - intros _. apply Ascii.eqb_eq in Hx as ->. now exists EmptyString, s.
  - destruct (strings.Index s _) as [k|] eqn:Hk; [|discriminate].
    intros _. destruct (IH k eq_refl) as (a & t & -> & Ha).
    exists (String x a), t. split; [reflexivity|].
    cbn [strings.mentions]. now rewrite Hx, Ha.
Qed.

(** A string without the separator is not split. *)
Lemma SplitN_none c s :
  strings.mentions c s = false ->
  strings.SplitN s (String c EmptyString) 2 = [s].
Proof.
  intros Hs. unfold strings.SplitN.
  destruct s as [|x s]; [reflexivity|].
  replace (Nat.min 2 (String.length (String x s) + 1)) with 2
    by (cbn [String.length]; lia).
  cbn [Nat.sub strings.splitLoop]. now rewrite Index_single_None.
Qed.

(** A string is split at the first separator, and only there. *)
Lemma SplitN_first c a t :
  strings.mentions c a = false ->
  strings.SplitN (a ++ String c t)%string (String c EmptyString) 2 = [a; t].
Proof.
  intros Ha. unfold strings.SplitN.
  replace (Nat.min 2 (String.length (a ++ String c t) + 1)) with 2
    by (rewrite length_append; cbn [String.length]; lia).
  cbn [Nat.sub strings.splitLoop]. rewrite Index_single_Some by assumption.
  rewrite substring_head. cbn [strings.splitLoop String.length].
  f_equal. f_equal.
  rewrite length_append. cbn [String.length].
  replace (String.length a + S (String.length t) - (String.length a + 1))
    with (String.length (String c t) - 1) by (cbn [String.length]; lia).
  rewrite substring_tail. cbn. rewrite Nat.sub_0_r. apply substring_whole.
Qed.

(** The two shapes a split in two can have. *)
Lemma SplitN_shape c s :
  (strings.mentions c s = false /\ strings.SplitN s (String c EmptyString) 2 = [s]) \/
  (exists a t, s = (a ++ String c t)%string /\ strings.mentions c a = false /\
               strings.SplitN s (String c EmptyString) 2 = [a; t]).
Proof.
  destruct (strings.mentions c s) eqn:Hs.
  - right. destruct (strings.Index s (String c EmptyString)) as [n|] eqn:Hn.
    + destruct (Index_single_inv c s n Hn) as (a & t & -> & Ha).
      exists a, t. split; [reflexivity|]. split; [assumption|].
      now apply SplitN_first.
    + exfalso. clear -Hs Hn. induction s as [|x s IH]; [discriminate|].
      cbn [strings.Index] in Hn. rewrite prefix_single in Hn.
      cbn [strings.mentions] in Hs.
      destruct (Ascii.eqb x c); [discriminate|].
      destruct (strings.Index s _); [discriminate|]. now apply IH.
  - left. split; [reflexivity|]. now apply SplitN_none.
Qed.

End Splitting.

(** ** Credentials and the admin gate *)
Section Credentials.
Context {Payload Envelope : Type} {E : Externals Payload Envelope}.
Implicit Types (ctx : Context).

Local Open Scope list_scope.
Local Open Scope Z_scope.

(** X11: what follows [Bearer] and one space is the key, whole, spaces
    included. *)
Theorem bearer_token_is_key ctx k :
  Header (Req ctx) "Authorization" = ("Bearer " ++ k)%string ->
  getApiKey ctx = Returns (k, None).
Proof.
  intros H. unfold getApiKey. rewrite H.
  change ("Bearer " ++ k)%string with ("Bearer" ++ String " " k)%string.
  now rewrite SplitN_first by reflexivity.
Qed.

(** X12: with [Basic] credentials that decode to a user, a colon and a
    password, the key is the password, colons included, when the user is
    [api_key], and empty for any other user. *)
Theorem basic_password_is_key ctx b64 user pass :
  Header (Req ctx) "Authorization" = ("Basic " ++ b64)%string ->
  base64.DecodeString b64 = Some (user ++ String ":" pass)%string ->
  strings.mentions ":" user = false ->
  getApiKey ctx
  = Returns (if String.eqb user "api_key" then pass else EmptyString, None).
Proof.
  intros H Hdec Huser. unfold getApiKey. rewrite H.
  change ("Basic " ++ b64)%string with ("Basic" ++ String " " b64)%string.
  rewrite SplitN_first by reflexivity.
  cbn [String.eqb Ascii.eqb Bool.eqb]. cbn match. rewrite Hdec.
  rewrite SplitN_first by assumption. cbn [lookup list_lookup].
  now destruct (String.eqb user "api_key").
Qed.

(** X13: [getApiKey] panics on no other header than [Basic] followed by
    an encoding of [api_key] alone. *)
Theorem getApiKey_panics_only ctx :
  (exists msg, getApiKey ctx = Panics msg) <->
  (exists b64,
      Header (Req ctx) "Authorization" = ("Basic " ++ b64)%string /\
      base64.DecodeString b64 = Some "api_key"%string).
Proof.
  split.
  - intros [msg Hp]. unfold getApiKey in Hp.
    destruct (SplitN_shape " " (Header (Req ctx) "Authorization"))
      as [[_ Hs] | (a & t & Hh & _ & Hs)]; rewrite Hs in Hp; [discriminate|].
    destruct (String.eqb a "Bearer"); [discriminate|].
    destruct (String.eqb a "Basic") eqn:Ha; [|discriminate].
    apply String.eqb_eq in Ha as ->.
    exists t. split; [exact Hh|].
    destruct (base64.DecodeString t) as [decoded|]; [|discriminate].
    destruct (SplitN_shape ":" decoded) as [[_ Hd] | (u & p & _ & _ & Hd)];
      rewrite Hd in Hp; cbn [lookup list_lookup] in Hp.
    + destruct (String.eqb decoded "api_key") eqn:Hk; [|discriminate].
      now apply String.eqb_eq in Hk as ->.
    + destruct (String.eqb u "api_key"); discriminate.
  - intros (b64 & H & Hdec). exists "index out of range"%string.
    unfold getApiKey. rewrite H.
    change ("Basic " ++ b64)%string with ("Basic" ++ String " " b64)%string.
    rewrite SplitN_first by reflexivity.
    cbn [String.eqb Ascii.eqb Bool.eqb]. cbn match. now rewrite Hdec.
Qed.

(** X14: [Auth] either assigns a user and answers nothing, and then the
    plugin has accepted a key that is not empty, the admin flag is the
    plugin's, and the organization is the plugin's or, for an admin, one
    that is not zero; or it assigns nothing and answers once, 401 or 500,
    or panics. *)
Theorem Auth_assigns_or_refuses ctx :
  match Auth (Payload := Payload) ctx with
  | (tr, Some user) =>
      tr = [] /\
      exists key resolved,
        key <> EmptyString /\ authPlugin key = inr resolved /\
        auth.IsAdmin user = auth.IsAdmin resolved /\
        (auth.OrgId user = auth.OrgId resolved \/
         (auth.IsAdmin resolved = true /\ auth.OrgId user <> 0))
  | (tr, None) =>
      (exists v, tr = [EvJSON 401 v]) \/
      (exists msg, tr = [EvLog "failed to perform authentication: %q" msg;
                         EvJSON 500 (JString msg)]) \/
      (exists msg, tr = [EvPanic msg])
  end.
Proof.
  unfold Auth. destruct (getApiKey ctx) as [[key [err|]]|msg].
  - left. now eexists.
  - destruct (String.eqb key EmptyString) eqn:Hkey; [left; now eexists|].
    apply String.eqb_neq in Hkey.
    destruct (authPlugin key) as [[t|t|t]|resolved] eqn:Hplug.
    + left. now eexists.
    + left. now eexists.
    + right. left. now eexists.
    + split; [reflexivity|]. exists key, resolved.
      split; [assumption|]. split; [assumption|].
      destruct (auth.IsAdmin resolved) eqn:Hadm; [|split; [now rewrite Hadm|now left]].
      destruct (negb (String.eqb _ EmptyString)); [|split; [now rewrite Hadm|now left]].
      destruct (strconv.ParseInt _) as [e|n]; [split; [now rewrite Hadm|now left]|].
      destruct (n =? 0) eqn:Hn; cbn [negb].
      * split; [now rewrite Hadm|now left].
      * split; [reflexivity|]. right. split; [reflexivity|]. now apply Z.eqb_neq.
  - right. right. now eexists.
Qed.

(** X15: the admin gate goes by the plugin's word alone.  After [Auth]
    has assigned the user of an accepted key, [RequireAdmin] lets the
    request pass when the plugin resolved an admin and answers 403
    otherwise, whatever the impersonation header says; the context of a
    request that has not been through [Auth] is refused. *)
Theorem admin_gate_by_plugin ctx key resolved :
  getApiKey ctx = Returns (key, None) ->
  key <> EmptyString ->
  authPlugin key = inr resolved ->
  (exists user,
      Auth (Payload := Payload) ctx = ([], Some user) /\
      RequireAdmin (Payload := Payload) (assignUser ctx user)
      = if auth.IsAdmin resolved then []
        else [EvJSON 403 (JString "Permision denied")]) /\
  RequireAdmin (Payload := Payload) (GetContextHandler (Req ctx) (Params ctx))
  = [EvJSON 403 (JString "Permision denied")].
Proof.
  intros Hkey Hne Hplug. split; [|reflexivity].
  unfold Auth. rewrite Hkey. apply String.eqb_neq in Hne. rewrite Hne, Hplug.
  eexists. split; [reflexivity|]. unfold RequireAdmin, assignUser. cbn [User].
  destruct (auth.IsAdmin resolved) eqn:Hadm; [|now rewrite Hadm].
  destruct (negb (String.eqb _ EmptyString)); [|now rewrite Hadm].
  destruct (strconv.ParseInt _) as [e|n]; [now rewrite Hadm|].
  destruct (negb (n =? 0)); [reflexivity|now rewrite Hadm].
Qed.

(** X16: tenant isolation from the key to the publisher.  When the plugin
    resolves the key to a user that is not an admin, every record the
    ingestion handlers publish for the request carries the organization
    the plugin resolved, whatever the impersonation header and the body
    say. *)
Theorem key_decides_organization ctx key resolved metrics tr b :
  getApiKey ctx = Returns (key, None) ->
  key <> EmptyString ->
  authPlugin key = inr resolved ->
  auth.IsAdmin resolved = false ->
  exists user,
    Auth (Payload := Payload) ctx = ([], Some user) /\
    (decoded (assignUser ctx user) metrics tr ->
     In b (published tr) ->
     Forall (fun e => exists m, e = Some m /\
                      schema.OrgId m = auth.OrgId resolved) b).
Proof.
  intros Hkey Hne Hplug Hadm.
  unfold Auth. rewrite Hkey. apply String.eqb_neq in Hne. rewrite Hne, Hplug, Hadm.
  exists resolved. split; [reflexivity|]. intros Hdec Hin.
  apply decoded_ingest in Hdec as (_ & Hp & _ & _). rewrite Hp in Hin.
  apply ingest_published in Hin as (ms & _ & _ & _ & ->).
  cbn [assignUser User]. rewrite Hadm.
  apply Forall_forall. intros e He.
  apply list_elem_of_In, in_map_iff in He as (m & <- & _).
  eexists. split; [reflexivity|].
  unfold userSlot, SetId, schema.withId. cbn [schema.OrgId].
  now rewrite OrgId_normalize.
Qed.

End Credentials.

(** ** Request statistics *)
Section Statistics.
Context {C H M : Type} {SL : StatsLib C H M}.
Context {W : Type} {RW : ResponseWriter W}.
Implicit Types (stats : requestStats C H M) (r : served) (reqs : list served).

Local Open Scope list_scope.
Local Open Scope Z_scope.

Lemma counterAt_PathStatusCount stats path status p s :
  counterAt (PathStatusCount stats path status) p s
  = if String.eqb path p && (status =? s)
    then Some (Inc (default (NewCounter32 (metricKey path status))
                            (counterAt stats path status)))
    else counterAt stats p s.
Proof.
  unfold counterAt, PathStatusCount. cbn [responseCounts].
  destruct (String.eqb path p) eqn:Hp.
  - apply String.eqb_eq in Hp as <-. rewrite lookup_insert_eq.
    destruct (status =? s) eqn:Hs; cbn [andb].
    + apply Z.eqb_eq in Hs as <-. rewrite lookup_insert_eq.
      destruct (responseCounts stats !! path) as [q|]; [|reflexivity].
      now destruct (q !! status).
    + apply Z.eqb_neq in Hs. rewrite lookup_insert_ne by assumption.
      destruct (responseCounts stats !! path) as [q|]; [reflexivity|].
      apply lookup_empty.
  - apply String.eqb_neq in Hp. now rewrite lookup_insert_ne by assumption.
Qed.

Lemma counterAt_step stats fresh r p s :
  counterAt (RequestStats stats (servedPath r) (servedElapsed r) fresh
               (servedCalls r)).1 p s
  = if countsFor fresh p s r
    then Some (Inc (default (NewCounter32 (metricKey p s)) (counterAt stats p s)))
    else counterAt stats p s.
Proof.
  unfold RequestStats, countsFor, servedStatus. cbn [fst].
  set (st := rwStatus (runPlain fresh (servedCalls r))).
  assert (Hsize : forall x q z, counterAt (PathSize x q z) p s = counterAt x p s)
    by reflexivity.
  assert (Hlat : forall x q z, counterAt (PathLatency x q z) p s = counterAt x p s)
    by reflexivity.
  destruct (st <? 300); rewrite ?Hsize;
    (destruct (st =? 404) eqn:H404; cbn [negb];
     [now rewrite andb_false_r|]);
    rewrite Hlat, counterAt_PathStatusCount, andb_true_r;
    (destruct (String.eqb _ p) eqn:Hp; [|reflexivity]);
    (destruct (st =? s) eqn:Hs; [|reflexivity]);
    apply String.eqb_eq in Hp; apply Z.eqb_eq in Hs; now subst.
Qed.

Lemma bumped_step n p s (c : option C) :
  bumped n p s (Some (Inc (default (NewCounter32 (metricKey p s)) c)))
  = bumped (S n) p s c.
Proof.
  destruct n as [|n]; [reflexivity|].
  unfold bumped. f_equal. cbn [default].
  change (Nat.iter (S n) Inc (Inc ?x)) with (Inc (Nat.iter n Inc (Inc x))).
  change (Nat.iter (S (S n)) Inc ?x) with (Inc (Inc (Nat.iter n Inc x))).
  f_equal. clear. induction n as [|n IH]; [reflexivity|].
  cbn [Nat.iter nat_rect]. now f_equal.
Qed.

Lemma counterAt_serveAll reqs : forall stats fresh p s,
  counterAt (serveAll stats fresh reqs) p s
  = bumped (length (List.filter (countsFor fresh p s) reqs)) p s (counterAt stats p s).
Proof.
  induction reqs as [|r reqs IH]; intros stats fresh p s; [reflexivity|].
  cbn [serveAll List.filter]. rewrite IH, counterAt_step.
  destruct (countsFor fresh p s r); [|reflexivity].
  cbn [length]. apply bumped_step.
Qed.

(** X17: starting from the empty statistics, the counter of a path and a
    status exists exactly when a request with that slug has ended with that
    status, other than 404, and it has then been incremented once for each
    such request. *)
Theorem counter_counts_requests (fresh : W) reqs p s :
  counterAt (serveAll newRequestStats fresh reqs) p s
  = match length (List.filter (countsFor fresh p s) reqs) with
    | 0%nat => None
    | S n => Some (Nat.iter (S n) Inc (NewCounter32 (metricKey p s)))
    end.
Proof.
  rewrite counterAt_serveAll. unfold bumped.
  now destruct (length _).
Qed.

(** Whether a path is a key of one of the three maps. *)
Lemma key_PathStatusCount stats q st p :
  is_Some (responseCounts (PathStatusCount stats q st) !! p) ->
  is_Some (responseCounts stats !! p) \/ p = q.
Proof.
  unfold PathStatusCount. cbn [responseCounts].
  destruct (decide (q = p)) as [->|Hne]; [now right|].
  rewrite lookup_insert_ne by assumption. now left.
Qed.

Lemma key_PathLatency stats q d p :
  is_Some (latencyHistograms (PathLatency stats q d) !! p) ->
  is_Some (latencyHistograms stats !! p) \/ p = q.
Proof.
  unfold PathLatency. cbn [latencyHistograms].
  destruct (decide (q = p)) as [->|Hne]; [now right|].
  rewrite lookup_insert_ne by assumption. now left.
Qed.

Lemma key_PathSize stats q z p :
  is_Some (sizeMeters (PathSize stats q z) !! p) ->
  is_Some (sizeMeters stats !! p) \/ p = q.
Proof.
  unfold PathSize. cbn [sizeMeters].
  destruct (decide (q = p)) as [->|Hne]; [now right|].
  rewrite lookup_insert_ne by assumption. now left.
Qed.

Lemma key_step stats fresh r p :
  let stats' := (RequestStats stats (servedPath r) (servedElapsed r) fresh
                   (servedCalls r)).1 in
  is_Some (responseCounts stats' !! p) \/ is_Some (latencyHistograms stats' !! p)
  \/ is_Some (sizeMeters stats' !! p) ->
  (is_Some (responseCounts stats !! p) \/ is_Some (latencyHistograms stats !! p)
   \/ is_Some (sizeMeters stats !! p))
  \/ (p = pathSlug (servedPath r) /\ servedStatus fresh r <> 404).
Proof.
  unfold RequestStats, servedStatus. cbn [fst].
  set (st := rwStatus (runPlain fresh (servedCalls r))).
  destruct (st <? 300) eqn:H300; destruct (st =? 404) eqn:H404; cbn [negb].
  - apply Z.ltb_lt in H300. apply Z.eqb_eq in H404. lia.
  - apply Z.eqb_neq in H404.
    intros [Hk | [Hk | Hk]].
    + apply key_PathStatusCount in Hk as [Hk|Hk]; [left; now left|now right].
    + apply key_PathLatency in Hk as [Hk|Hk]; [left; right; now left|now right].
    + apply key_PathSize in Hk as [Hk|Hk]; [left; right; now right|now right].
  - intros Hk. now left.
  - apply Z.eqb_neq in H404.
    intros [Hk | [Hk | Hk]].
    + apply key_PathStatusCount in Hk as [Hk|Hk]; [left; now left|now right].
    + apply key_PathLatency in Hk as [Hk|Hk]; [left; right; now left|now right].
    + left. right. now right.
Qed.

Lemma key_serveAll reqs : forall stats fresh p,
  let stats' := serveAll stats fresh reqs in
  is_Some (responseCounts stats' !! p) \/ is_Some (latencyHistograms stats' !! p)
  \/ is_Some (sizeMeters stats' !! p) ->
  (is_Some (responseCounts stats !! p) \/ is_Some (latencyHistograms stats !! p)
   \/ is_Some (sizeMeters stats !! p))
  \/ (exists r, In r reqs /\ p = pathSlug (servedPath r) /\ servedStatus fresh r <> 404).
Proof.
  induction reqs as [|r reqs IH]; intros stats fresh p; [now left|].
  cbn [serveAll]. intros Hk. apply IH in Hk as [Hk | (r' & Hin & Hp & Hs)].
  - apply key_step in Hk as [Hk | [Hp Hs]]; [now left|].
    right. exists r. split; [now left|]. now split.
  - right. exists r'. split; [now right|]. now split.
Qed.

(** X18: starting from the empty statistics, every key of the three maps
    is the slug of the path of a request that did not end with 404; so it
    is not empty and holds neither slash nor dot. *)
Theorem keys_are_slugs_of_served (fresh : W) reqs p :
  let stats := serveAll newRequestStats fresh reqs in
  is_Some (responseCounts stats !! p) \/ is_Some (latencyHistograms stats !! p)
  \/ is_Some (sizeMeters stats !! p) ->
  (exists r, In r reqs /\ p = pathSlug (servedPath r) /\ servedStatus fresh r <> 404) /\
  p <> EmptyString /\
  strings.mentions "/" p = false /\ strings.mentions "." p = false.
Proof.
  intros stats Hk. apply key_serveAll in Hk as [Hk | (r & Hin & -> & Hs)].
  - unfold newRequestStats in Hk. cbn in Hk. rewrite !lookup_empty in Hk.
    destruct Hk as [[? Hk] | [[? Hk] | [? Hk]]]; discriminate.
  - split; [exists r; now repeat split|]. apply pathSlug_plain.
Qed.

Lemma kept_step stats fresh r p :
  let stats' := (RequestStats stats (servedPath r) (servedElapsed r) fresh
                   (servedCalls r)).1 in
  (is_Some (responseCounts stats !! p) -> is_Some (responseCounts stats' !! p)) /\
  (is_Some (latencyHistograms stats !! p) -> is_Some (latencyHistograms stats' !! p)) /\
  (is_Some (sizeMeters stats !! p) -> is_Some (sizeMeters stats' !! p)).
Proof.
  unfold RequestStats, PathSize, PathLatency, PathStatusCount. cbn [fst].
  destruct (_ <? 300); destruct (negb _);
    cbn [responseCounts latencyHistograms sizeMeters]; repeat split; intros Hk;
    try assumption;
    match goal with
    | |- is_Some (<[?q := _]> _ !! p) =>
        destruct (decide (q = p)) as [->|Hne];
        [rewrite lookup_insert_eq; now eexists
        |now rewrite lookup_insert_ne by assumption]
    end.
Qed.

(** X19: no entry is ever removed: a path that is a key of one of the
    maps, and a counter that exists, are still there after any run of
    requests. *)
Theorem entries_never_removed stats (fresh : W) reqs p :
  let stats' := serveAll stats fresh reqs in
  (is_Some (responseCounts stats !! p) -> is_Some (responseCounts stats' !! p)) /\
  (is_Some (latencyHistograms stats !! p) -> is_Some (latencyHistograms stats' !! p)) /\
  (is_Some (sizeMeters stats !! p) -> is_Some (sizeMeters stats' !! p)) /\
  (forall s, is_Some (counterAt stats p s) -> is_Some (counterAt stats' p s)).
Proof.
  cbn zeta. split; [|split; [|split]].
  1-3: revert stats; induction reqs as [|r reqs IH]; intros stats Hk;
       [assumption|]; cbn [serveAll]; apply IH;
       now apply (kept_step stats fresh r p).
  intros s Hk. rewrite counterAt_serveAll. unfold bumped.
  destruct (length _); [assumption|]. now eexists.
Qed.

End Statistics.

(** ** Decimal numbers *)
Section Decimal.

Local Open Scope Z_scope.

Lemma digit_of_char d :
  0 <= d < 10 -> strconv.digit (ascii_of_nat (Z.to_nat (48 + d))) = Some d.
Proof.
  intros Hd.
  assert (d = 0 \/ d = 1 \/ d = 2 \/ d = 3 \/ d = 4 \/ d = 5 \/ d = 6 \/ d = 7
          \/ d = 8 \/ d = 9) as Hc by lia.
  repeat (destruct Hc as [-> | Hc]; [reflexivity|]). now subst.
Qed.

Lemma digits_snoc s : forall a c,
  strconv.digits a (s ++ String c EmptyString)%string
  = match strconv.digits a s with
    | Some v => match strconv.digit c with
                | Some d => Some (10 * v + d)
                | None => None
                end
    | None => None
    end.
Proof.
  induction s as [|x s IH]; intros a c.
  - rewrite append_nil. cbn [strconv.digits]. now destruct (strconv.digit c).
  - rewrite append_cons. cbn [strconv.digits].
    destruct (strconv.digit x); [apply IH|reflexivity].
Qed.

Lemma append_assoc (a b c : string) : ((a ++ b) ++ c)%string = (a ++ (b ++ c))%string.
Proof.
  induction a as [|x a IH]; [reflexivity|].
  rewrite !append_cons. now rewrite IH.
Qed.

(** The digits [posDigits] puts before [acc] are read back as [n], and
    the first of them is a digit. *)
Lemma posDigits_read fuel : forall n acc,
  0 <= n < 10 ^ Z.of_nat (S fuel) ->
  exists c s,
    strconv.posDigits (S fuel) n acc = (String c s ++ acc)%string /\
    strconv.digits 0 (String c s) = Some n /\
    strconv.digit c <> None.
Proof.
  induction fuel as [|fuel IH]; intros n acc Hn;
    cbn [strconv.posDigits];
    assert (Hd : 0 <= n mod 10 < 10) by (apply Z.mod_pos_bound; lia);
    pose proof (digit_of_char _ Hd) as Hchar;
    (destruct (n <? 10) eqn:Hlt;
     [apply Z.ltb_lt in Hlt; rewrite Z.mod_small in * by lia;
      eexists _, EmptyString; split; [reflexivity|];
      cbn [strconv.digits]; rewrite Hchar; split; [f_equal; lia|discriminate]
     |apply Z.ltb_ge in Hlt]).
  - change (10 ^ Z.of_nat 1) with 10 in Hn. lia.
  - assert (Hq : 0 <= n / 10 < 10 ^ Z.of_nat (S fuel)).
    { split; [apply Z.div_pos; lia|].
      apply Z.div_lt_upper_bound; [lia|].
      rewrite (Nat2Z.inj_succ (S fuel)), Z.pow_succ_r in Hn by lia. lia. }
    destruct (IH (n / 10) (String (ascii_of_nat (Z.to_nat (48 + n mod 10))) acc) Hq)
      as (c & s & Hrepr & Hread & Hc).
    cbn [strconv.posDigits] in Hrepr. rewrite Hrepr.
    exists c, (s ++ String (ascii_of_nat (Z.to_nat (48 + n mod 10))) EmptyString)%string.
    split; [|split; [|assumption]].
    + rewrite !append_cons. f_equal. now rewrite append_assoc.
    + rewrite <- append_cons, digits_snoc, Hread, Hchar. f_equal.
      pose proof (Z.div_mod n 10). lia.
Qed.

Lemma enough_fuel n : 0 <= n -> 0 <= n < 10 ^ Z.of_nat (S (Z.to_nat (Z.log2 n))).
Proof.
  intros Hn. split; [assumption|]. pose proof (Z.log2_nonneg n) as Hl.
  rewrite Nat2Z.inj_succ, Z2Nat.id by assumption.
  destruct (Z.eq_dec n 0) as [->|Hne]; [reflexivity|].
  assert (n < 2 ^ Z.succ (Z.log2 n)) by (apply Z.log2_spec; lia).
  assert (2 ^ Z.succ (Z.log2 n) <= 10 ^ Z.succ (Z.log2 n))
    by (apply Z.pow_le_mono_l; lia).
  lia.
Qed.

Lemma ParseInt_FormatInt_aux n :
  - 2 ^ 63 <= n < 2 ^ 63 ->
  strconv.ParseInt (strconv.FormatInt n) = inr n.
Proof.
  intros Hn. unfold strconv.FormatInt.
  destruct (n <? 0) eqn:Hneg.
  - apply Z.ltb_lt in Hneg.
    destruct (posDigits_read _ (- n) EmptyString (enough_fuel (- n) ltac:(lia)))
      as (c & s & -> & Hread & Hc).
    assert (Hnil : forall t, (t ++ EmptyString)%string = t).
    { induction t as [|x t IH]; [reflexivity|]. rewrite append_cons. now rewrite IH. }
    rewrite Hnil. change ("-" ++ String c s)%string with (String "-" (String c s)).
    unfold strconv.ParseInt. cbn [Ascii.eqb Bool.eqb]. cbn match.
    unfold strconv.ParseUint. rewrite Hread.
    replace (- n <? 2 ^ 64) with true by (symmetry; apply Z.ltb_lt; lia).
    cbn [negb andb].
    replace (2 ^ 63 <? - n) with false by (symmetry; apply Z.ltb_ge; lia).
    f_equal. lia.
  - apply Z.ltb_ge in Hneg.
    destruct (posDigits_read _ n EmptyString (enough_fuel n Hneg))
      as (c & s & -> & Hread & Hc).
    assert (Hnil : forall t, (t ++ EmptyString)%string = t).
    { induction t as [|x t IH]; [reflexivity|]. rewrite append_cons. now rewrite IH. }
    rewrite Hnil. unfold strconv.ParseInt.
    assert (Hplus : Ascii.eqb c "+" = false).
    { destruct (Ascii.eqb c "+") eqn:H; [|reflexivity].
      apply Ascii.eqb_eq in H. subst c. now contradiction Hc. }
    assert (Hminus : Ascii.eqb c "-" = false).
    { destruct (Ascii.eqb c "-") eqn:H; [|reflexivity].
      apply Ascii.eqb_eq in H. subst c. now contradiction Hc. }
    rewrite Hplus, Hminus. unfold strconv.ParseUint. rewrite Hread.
    replace (n <? 2 ^ 64) with true by (symmetry; apply Z.ltb_lt; lia).
    cbn [negb andb].
    replace (2 ^ 63 <=? n) with false by (symmetry; apply Z.leb_gt; lia).
    reflexivity.
Qed.

(** X20: an integer of 64 bits printed in decimal is parsed back to
    itself, so the impersonation header can name every organization. *)
Theorem ParseInt_FormatInt n :
  - 2 ^ 63 <= n < 2 ^ 63 ->
  strconv.ParseInt (strconv.FormatInt n) = inr n.
Proof. apply ParseInt_FormatInt_aux. Qed.

End Decimal.

(** ** The names of the metrics *)
Section MetricNames.

Local Open Scope Z_scope.

Lemma append_inj_l a x y : (a ++ x)%string = (a ++ y)%string -> x = y.
Proof.
  induction a as [|c a IH]; [now rewrite !append_nil|].
  rewrite !append_cons. intros [= H]. now apply IH.
Qed.

Lemma mentions_sep c a t : strings.mentions c (a ++ String c t)%string = true.
Proof.
  induction a as [|x a IH].
  - rewrite append_nil. cbn [strings.mentions]. now rewrite Ascii.eqb_refl.
  - rewrite append_cons. cbn [strings.mentions]. now rewrite IH, orb_true_r.
Qed.

(** Two strings cut at their first separator are equal part by part. *)
Lemma first_sep_unique c a : forall a' t t',
  strings.mentions c a = false -> strings.mentions c a' = false ->
  (a ++ String c t)%string = (a' ++ String c t')%string ->
  a = a' /\ t = t'.
Proof.
  induction a as [|x a IH]; intros [|x' a'] t t' Ha Ha'.
  - rewrite !append_nil. now intros [= ->].
  - rewrite append_nil, append_cons. intros [= <- _].
    cbn [strings.mentions] in Ha'. now rewrite Ascii.eqb_refl in Ha'.
  - rewrite append_nil, append_cons. intros [= -> _].
    cbn [strings.mentions] in Ha. now rewrite Ascii.eqb_refl in Ha.
  - rewrite !append_cons. intros [= <- H].
    cbn [strings.mentions] in Ha, Ha'.
    apply orb_false_elim in Ha as [_ Ha]. apply orb_false_elim in Ha' as [_ Ha'].
    destruct (IH _ _ _ Ha Ha' H) as [-> ->]. now split.
Qed.

(** X21: the names of the metrics of two slugs do not collide: the counters
    of different pairs of slug and status have different names, and no
    counter shares its name with a latency histogram or a size meter, nor a
    histogram with a meter. *)
Theorem metric_names_do_not_collide u1 u2 s1 s2 :
  - 2 ^ 63 <= s1 < 2 ^ 63 -> - 2 ^ 63 <= s2 < 2 ^ 63 ->
  let p1 := pathSlug u1 in
  let p2 := pathSlug u2 in
  (metricKey p1 s1 = metricKey p2 s2 -> p1 = p2 /\ s1 = s2) /\
  ("api.request." ++ p1)%string <> metricKey p2 s2 /\
  ("api.request." ++ p1 ++ ".size")%string <> metricKey p2 s2 /\
  ("api.request." ++ p1)%string <> ("api.request." ++ p2 ++ ".size")%string.
Proof.
  intros H1 H2 p1 p2.
  destruct (pathSlug_plain u1) as (_ & _ & Hd1).
  destruct (pathSlug_plain u2) as (_ & _ & Hd2).
  fold p1 in Hd1. fold p2 in Hd2. clearbody p1 p2.
  unfold metricKey, fmt.d. repeat split.
  - apply append_inj_l in H.
    change (".status." ++ ?d)%string with (String "." ("status." ++ d)) in H.
    now destruct (first_sep_unique _ _ _ _ _ Hd1 Hd2 H).
  - apply append_inj_l in H.
    change (".status." ++ ?d)%string with (String "." ("status." ++ d)) in H.
    destruct (first_sep_unique _ _ _ _ _ Hd1 Hd2 H) as [_ H'].
    apply append_inj_l in H'.
    apply (f_equal strconv.ParseInt) in H'.
    rewrite !ParseInt_FormatInt_aux in H' by assumption. congruence.
  - intros H. apply append_inj_l in H.
    change (".status." ++ ?d)%string with (String "." ("status." ++ d)) in H.
    rewrite H, mentions_sep in Hd1. discriminate.
  - intros H. apply append_inj_l in H.
    change (".status." ++ ?d)%string with (String "." ("status." ++ d)) in H.
    change (".size")%string with (String "." "size") in H.
    destruct (first_sep_unique _ _ _ _ _ Hd1 Hd2 H) as [_ H'].
    change ("status." ++ ?d)%string with (String "s" (String "t" ("atus." ++ d))) in H'.
    discriminate H'.
  - intros H. apply append_inj_l in H.
    change (".size")%string with (String "." "size") in H.
    rewrite H, mentions_sep in Hd1. discriminate.
Qed.

End MetricNames.

(** ** The tracing decorator and the tracer *)
Section Tracing.
Context {W : Type} {RW : ResponseWriter W}.
Implicit Types (rw : TracingResponseWriter W) (calls : list call).

Local Open Scope list_scope.
Local Open Scope Z_scope.

Lemma inner_runTraced calls : forall rw,
  inner (runTraced rw calls) = runPlain (inner rw) calls.
Proof.
  induction calls as [|[st|b] calls IH]; intros rw; [reflexivity|..];
    cbn [runTraced runPlain]; rewrite IH; [reflexivity|].
  unfold TracingResponseWriter_Write.
  destruct (400 <=? rwStatus (inner rw)); cbn [inner];
    now destruct (rwWrite (inner rw) b).
Qed.

(** X22: the decorator does not change the response: whatever the chain
    does, the embedded writer ends as the plain writer would, and each
    write comes back with what the embedded writer returned. *)
Theorem tracing_is_transparent rw calls b :
  inner (runTraced rw calls) = runPlain (inner rw) calls /\
  (TracingResponseWriter_Write rw b).2 = (rwWrite (inner rw) b).2 /\
  inner (TracingResponseWriter_Write rw b).1 = (rwWrite (inner rw) b).1.
Proof.
  split; [apply inner_runTraced|].
  unfold TracingResponseWriter_Write.
  destruct (400 <=? rwStatus (inner rw)); cbn [inner];
    now destruct (rwWrite (inner rw) b).
Qed.

(** X23: the body kept for the trace is the last chunk written, not the
    whole body: on a writer whose error status is not changed by writing,
    after any chunks written under an error status the kept body is the
    last of them. *)
Theorem errBody_is_last_chunk rw chunks b :
  (forall (w : W) c, 400 <= rwStatus w -> rwStatus (rwWrite w c).1 = rwStatus w) ->
  400 <= rwStatus (inner rw) ->
  last chunks = Some b ->
  errBody (runTraced rw (map CallWrite chunks)) = b.
Proof.
  intros Hstable. revert rw.
  induction chunks as [|c chunks IH]; intros rw Hst Hlast; [discriminate|].
  cbn [map runTraced].
  assert (Hone : errBody (TracingResponseWriter_Write rw c).1 = c /\
                 400 <= rwStatus (inner (TracingResponseWriter_Write rw c).1)).
  { unfold TracingResponseWriter_Write.
    replace (400 <=? rwStatus (inner rw)) with true
      by (symmetry; now apply Z.leb_le).
    cbn [inner errBody]. specialize (Hstable (inner rw) c Hst).
    destruct (rwWrite (inner rw) c) as [w res]. cbn [fst inner errBody] in *.
    split; [reflexivity|lia]. }
  destruct Hone as [Hbody Hst'].
  destruct chunks as [|c' chunks].
  - cbn in Hlast. injection Hlast as <-. exact Hbody.
  - apply IH; [exact Hst'|exact Hlast].
Qed.


End Tracing.

(** ** The proxy is called for searches only *)
Section ProxyOnly.
Context {Payload Envelope : Type} {E : Externals Payload Envelope}.

Local Open Scope list_scope.
Local Open Scope Z_scope.

(** X25: the search cluster is contacted for a POST to [_msearch] and for
    nothing else, and then for the caller's organization. *)
Theorem proxy_called_for_msearch_only (now : time.Time) (c : Context) org :
  In (EvProxy org) (ElasticsearchProxy (Payload := Payload) now c) <->
  Method (Req c) = "POST"%string /\ Params c "*" = "_msearch"%string /\
  org = auth.OrgId (User c).
Proof.
  unfold ElasticsearchProxy. split.
  - destruct (String.eqb (Method (Req c)) "GET" && _)%bool;
      [intros [H|[]]; discriminate|].
    destruct (String.eqb (Method (Req c)) "POST") eqn:Hm;
      [|intros [H|[]]; discriminate].
    destruct (String.eqb (Params c "*") "_msearch") eqn:Hp;
      [|intros [H|[]]; discriminate].
    apply String.eqb_eq in Hm, Hp. intros [[= ->]|[]]. now repeat split.
  - intros (-> & -> & ->). cbn. now left.
Qed.

End ProxyOnly.

(** ** Latencies and sizes *)
Section Observations.
Context {C H M : Type} {SL : StatsLib C H M}.
Context {W : Type} {RW : ResponseWriter W}.
Implicit Types (stats : requestStats C H M) (r : served) (reqs : list served).

Local Open Scope list_scope.
Local Open Scope Z_scope.

Lemma fed_step {A} (value : A -> Z -> A) new x xs (p : option A) :
  fed value new xs (Some (value (default new p) x)) = fed value new (x :: xs) p.
Proof. now destruct xs. Qed.

Lemma latency_step stats fresh r p :
  latencyHistograms (RequestStats stats (servedPath r) (servedElapsed r) fresh
                       (servedCalls r)).1 !! p
  = if timedFor fresh p r
    then Some (histValue
                 (default (NewLatencyHistogram15s32 ("api.request." ++ p)%string)
                          (latencyHistograms stats !! p))
                 (servedElapsed r))
    else latencyHistograms stats !! p.
Proof.
  unfold RequestStats, timedFor, servedStatus. cbn [fst].
  set (st := rwStatus (runPlain fresh (servedCalls r))).
  assert (Hsize : forall x q z, latencyHistograms (PathSize x q z) = latencyHistograms x)
    by reflexivity.
  assert (Hdrop : latencyHistograms
            (if st <? 300
             then PathSize
                    (if negb (st =? 404)
                     then PathLatency (PathStatusCount stats (pathSlug (servedPath r)) st)
                            (pathSlug (servedPath r)) (servedElapsed r)
                     else stats) (pathSlug (servedPath r))
                    (rwSize (runPlain fresh (servedCalls r)))
             else if negb (st =? 404)
                  then PathLatency (PathStatusCount stats (pathSlug (servedPath r)) st)
                         (pathSlug (servedPath r)) (servedElapsed r)
                  else stats)
          = latencyHistograms
              (if negb (st =? 404)
               then PathLatency (PathStatusCount stats (pathSlug (servedPath r)) st)
                      (pathSlug (servedPath r)) (servedElapsed r)
               else stats))
    by now destruct (st <? 300).
  rewrite Hdrop. clear Hdrop Hsize.
  destruct (st =? 404); cbn [negb]; [now rewrite andb_false_r|].
  rewrite andb_true_r. unfold PathLatency, PathStatusCount.
  cbn [latencyHistograms].
  destruct (String.eqb _ p) eqn:Hp.
  - apply String.eqb_eq in Hp as ->. rewrite lookup_insert_eq.
    now destruct (latencyHistograms stats !! _).
  - apply String.eqb_neq in Hp. now rewrite lookup_insert_ne by assumption.
Qed.

Lemma size_step stats fresh r p :
  sizeMeters (RequestStats stats (servedPath r) (servedElapsed r) fresh
                (servedCalls r)).1 !! p
  = if sizedFor fresh p r
    then Some (meterValue
                 (default (NewMeter32 ("api.request." ++ p ++ ".size")%string false)
                          (sizeMeters stats !! p))
                 (servedSize fresh r))
    else sizeMeters stats !! p.
Proof.
  unfold RequestStats, sizedFor, servedStatus, servedSize. cbn [fst].
  set (st := rwStatus (runPlain fresh (servedCalls r))).
  assert (Hkeep : sizeMeters
            (if negb (st =? 404)
             then PathLatency (PathStatusCount stats (pathSlug (servedPath r)) st)
                    (pathSlug (servedPath r)) (servedElapsed r)
             else stats) = sizeMeters stats)
    by now destruct (negb _).
  destruct (st <? 300); [|now rewrite andb_false_r, Hkeep].
  rewrite andb_true_r. unfold PathSize at 1. cbn [sizeMeters]. rewrite Hkeep.
  destruct (String.eqb _ p) eqn:Hp.
  - apply String.eqb_eq in Hp as ->. rewrite lookup_insert_eq.
    now destruct (sizeMeters stats !! _).
  - apply String.eqb_neq in Hp. now rewrite lookup_insert_ne by assumption.
Qed.

Lemma latency_serveAll reqs : forall stats fresh p,
  latencyHistograms (serveAll stats fresh reqs) !! p
  = fed histValue (NewLatencyHistogram15s32 ("api.request." ++ p)%string)
        (map servedElapsed (List.filter (timedFor fresh p) reqs))
        (latencyHistograms stats !! p).
Proof.
  induction reqs as [|r reqs IH]; intros stats fresh p; [reflexivity|].
  cbn [serveAll List.filter]. rewrite IH, latency_step.
  destruct (timedFor fresh p r); [|reflexivity].
  cbn [map]. apply fed_step.
Qed.

Lemma size_serveAll reqs : forall stats fresh p,
  sizeMeters (serveAll stats fresh reqs) !! p
  = fed meterValue (NewMeter32 ("api.request." ++ p ++ ".size")%string false)
        (map (servedSize fresh) (List.filter (sizedFor fresh p) reqs))
        (sizeMeters stats !! p).
Proof.
  induction reqs as [|r reqs IH]; intros stats fresh p; [reflexivity|].
  cbn [serveAll List.filter]. rewrite IH, size_step.
  destruct (sizedFor fresh p r); [|reflexivity].
  cbn [map]. apply fed_step.
Qed.

(** X26: starting from the empty statistics, the latency histogram of a
    slug has been given, in the order of the requests, the time of every
    request with that slug that did not end with 404, and its size meter the
    size of every response with that slug and a status below 300; a metric
    that was given nothing does not exist. *)
Theorem observations_in_order (fresh : W) reqs p :
  let stats := serveAll newRequestStats fresh reqs in
  latencyHistograms stats !! p
  = fed histValue (NewLatencyHistogram15s32 ("api.request." ++ p)%string)
        (map servedElapsed (List.filter (timedFor fresh p) reqs)) None /\
  sizeMeters stats !! p
  = fed meterValue (NewMeter32 ("api.request." ++ p ++ ".size")%string false)
        (map (servedSize fresh) (List.filter (sizedFor fresh p) reqs)) None.
Proof.
  cbn zeta. rewrite latency_serveAll, size_serveAll.
  unfold newRequestStats. cbn [latencyHistograms sizeMeters].
  now rewrite !lookup_empty.
Qed.

End Observations.

(** ** The slug as a name *)
Section SlugName.

(** X27: the slug of any path is a name for a metric: it is not empty and
    holds neither slash nor dot. *)
Theorem pathSlug_is_a_name p :
  pathSlug p <> EmptyString /\
  strings.mentions "/" (pathSlug p) = false /\
  strings.mentions "." (pathSlug p) = false.
Proof. apply pathSlug_plain. Qed.

End SlugName.

(** ** The further properties in the sample world *)
Section MoreRuns.

Local Open Scope list_scope.
Local Open Scope Z_scope.

Lemma unknown_content_type_witness :
  Metrics (E := gw)
    (sample.send "application/json; charset=utf-8" sample.admin
       (sample.bytes "one-public-record"))
  = [EvJSON 400 (JString "unknown content-type: application/json; charset=utf-8")].
Proof.
  apply (unknown_content_type (E := gw)
           (sample.send "application/json; charset=utf-8" sample.admin
              (sample.bytes "one-public-record"))); discriminate.
Defined.

Lemma published_records_normalized_witness :
  let orig := schema.mkMetricData "-1.x" 5 "x" "x" "gauge" [] tt in
  let copy := schema.mkMetricData "-1.x" (-1) "x" "x" "gauge" [] tt in
  Forall (fun e => exists r, e = Some r /\
                   schema.Metric r = schema.Name r /\
                   schema.Tags r = [] /\
                   schema.Mtype r <> EmptyString) [Some orig; Some copy].
Proof.
  intros orig copy.
  apply (published_records_normalized (E := gw)
           (sample.post sample.admin (sample.bytes "one-public-record"))
           [Some sample.x]
           (metricsJson (E := gw)
              (sample.post sample.admin (sample.bytes "one-public-record")))).
  - left. exists (mkReader "one-public-record" None).
    split; [reflexivity|]. split; reflexivity.
  - left. reflexivity.
Defined.

Lemma valid_batch_published_witness :
  let tr := metricsJson (E := gw)
              (sample.post sample.tenant (sample.bytes "one-public-record")) in
  exists b,
    published tr = [b] /\ validAdds tr = [length b] /\ rejectedAdds tr = [] /\
    (1 <= length b)%nat /\
    responses tr = [match Publish (Externals := gw) b with
                    | Some err => (500, JError err)
                    | None => (200, JString "ok")
                    end].
Proof.
  intros tr.
  apply (valid_batch_published (E := gw)
           (sample.post sample.tenant (sample.bytes "one-public-record"))
           [sample.x] tr).
  - left. exists (mkReader "one-public-record" None).
    split; [reflexivity|]. split; reflexivity.
  - repeat constructor.
Defined.

Lemma nil_entry_panics_witness :
  let w := sample.world 5 [("record-then-null", [Some sample.x; None])]%string in
  let ctx := sample.post sample.admin (sample.bytes "record-then-null") in
  let tr := metricsJson (E := w) ctx in
  validated tr = [schema.mkMetricData EmptyString (-1) "x" "x" "gauge" [] tt] /\
  panicked tr = true /\
  responses tr = [] /\ published tr = [] /\
  rejectedAdds tr = [] /\ validAdds tr = [].
Proof.
  intros w ctx tr.
  apply (nil_entry_panics (E := w) ctx [Some sample.x; None] tr [sample.x] []).
  - left. exists (mkReader "record-then-null" None).
    split; [reflexivity|]. split; reflexivity.
  - reflexivity.
  - repeat constructor.
Defined.

Lemma admin_keeps_organization_witness :
  let w := sample.world (-1) sample.bodies in
  let kept := schema.mkMetricData "-1.x" (-1) "x" "x" "gauge" [] tt in
  (exists r, [Some kept] !! 0%nat = Some (Some r) /\
             schema.OrgId r = -1 /\ schema.Id r = "-1.x"%string) /\
  length [Some kept] = length [Some sample.x].
Proof.
  intros w kept.
  destruct (admin_keeps_organization (E := w)
              (sample.post sample.admin (sample.bytes "one-public-record"))
              [Some sample.x]
              (metricsJson (E := w)
                 (sample.post sample.admin (sample.bytes "one-public-record")))
              [Some kept]) as [Hkeep Hlen].
  - left. exists (mkReader "one-public-record" None).
    split; [reflexivity|]. split; reflexivity.
  - reflexivity.
  - left. reflexivity.
  - split.
    + apply (Hkeep 0%nat sample.x); reflexivity.
    + apply Hlen. reflexivity.
Defined.

Lemma published_in_order_witness :
  let forced := schema.mkMetricData "7.x" 7 "x" "x" "gauge" [] tt in
  exists r, [Some forced] !! 0%nat = Some (Some r) /\
            schema.Name r = "x"%string /\ schema.Metric r = "x"%string /\
            schema.Rest r = tt.
Proof.
  intros forced.
  apply (published_in_order (E := gw)
           (sample.post sample.tenant (sample.bytes "one-public-record"))
           [Some sample.x]
           (metricsJson (E := gw)
              (sample.post sample.tenant (sample.bytes "one-public-record")))
           [Some forced] 0%nat sample.x).
  - left. exists (mkReader "one-public-record" None).
    split; [reflexivity|]. split; reflexivity.
  - left. reflexivity.
  - reflexivity.
Defined.

Lemma validated_at_most_decoded_witness :
  (length (validated
             (metricsJson (E := gw)
                (sample.post sample.admin (sample.bytes "public-then-nameless"))))
   <= 2)%nat.
Proof.
  apply (validated_at_most_decoded (E := gw)
           (sample.post sample.admin (sample.bytes "public-then-nameless"))
           [Some sample.x; Some sample.nameless]).
  left. exists (mkReader "public-then-nameless" None).
  split; [reflexivity|]. split; reflexivity.
Defined.


Lemma json_read_error_ignored_witness :
  published
    (metricsJson (E := gw)
       (sample.post sample.tenant
          (Some (mkReader "one-public-record" (Some "unexpected EOF"%string)))))
  = [[Some (schema.mkMetricData "7.x" 7 "x" "x" "gauge" [] tt)]].
Proof.
  rewrite (json_read_error_ignored (E := gw)
             (sample.post sample.tenant
                (Some (mkReader "one-public-record" (Some "unexpected EOF"%string))))
             (mkReader "one-public-record" (Some "unexpected EOF"%string))
             "unexpected EOF" eq_refl eq_refl).
  reflexivity.
Defined.

Lemma bearer_token_is_key_witness :
  getApiKey (sample.login "Bearer admin key" EmptyString)
  = Returns ("admin key"%string, None).
Proof. apply (bearer_token_is_key _ "admin key"). reflexivity. Defined.

Lemma basic_password_is_key_witness :
  getApiKey (sample.login "Basic YXBpX2tleTpzZWNyZXQ=" EmptyString)
  = Returns ("secret"%string, None).
Proof.
  apply (basic_password_is_key
           (sample.login "Basic YXBpX2tleTpzZWNyZXQ=" EmptyString)
           "YXBpX2tleTpzZWNyZXQ=" "api_key" "secret"); reflexivity.
Defined.

Lemma admin_gate_by_plugin_witness :
  exists user,
    Auth (E := gw) (sample.login "Bearer user-key" "1") = ([], Some user) /\
    RequireAdmin (Payload := unit) (assignUser (sample.login "Bearer user-key" "1") user)
    = [EvJSON 403 (JString "Permision denied")].
Proof.
  apply (proj1 (admin_gate_by_plugin (E := gw)
                  (sample.login "Bearer user-key" "1") "user-key"
                  sample.tenant eq_refl ltac:(discriminate) eq_refl)).
Defined.

Lemma key_decides_organization_witness :
  let ctx :=
    mkContext (mkRequest "POST"
                 (sample.headers "application/json" "Bearer user-key" "1")
                 (sample.bytes "one-public-record"))
              (fun _ => EmptyString) (auth.mkUser 0 false) in
  let forced := schema.mkMetricData "7.x" 7 "x" "x" "gauge" [] tt in
  exists user,
    Auth (E := gw) ctx = ([], Some user) /\
    published (metricsJson (E := gw) (assignUser ctx user)) = [[Some forced]] /\
    Forall (fun e => exists m, e = Some m /\ schema.OrgId m = 7) [Some forced].
Proof.
  intros ctx forced.
  destruct (key_decides_organization (E := gw) ctx "user-key" sample.tenant
              [Some sample.x] (metricsJson (E := gw) (assignUser ctx sample.tenant))
              [Some forced] eq_refl ltac:(discriminate) eq_refl eq_refl)
    as (user & Hauth & Hpub).
  assert (Huser : user = sample.tenant).
  { cbv in Hauth. now injection Hauth as <-. }
  subst user. exists sample.tenant.
  split; [exact Hauth|]. split; [reflexivity|].
  apply Hpub.
  - left. exists (mkReader "one-public-record" None).
    split; [reflexivity|]. split; reflexivity.
  - left. reflexivity.
Defined.

Lemma ParseInt_FormatInt_witness :
  strconv.ParseInt (strconv.FormatInt (-42)) = inr (-42).
Proof. apply ParseInt_FormatInt. lia. Defined.

Lemma metric_names_do_not_collide_witness :
  (metricKey (pathSlug "/a/b") 200 = metricKey (pathSlug "/a.b") 200 ->
   pathSlug "/a/b" = pathSlug "/a.b" /\ 200 = 200) /\
  ("api.request." ++ pathSlug "/a/b")%string <> metricKey (pathSlug "/a.b") 200.
Proof.
  destruct (metric_names_do_not_collide "/a/b" "/a.b" 200 200
              ltac:(lia) ltac:(lia)) as (H1 & H2 & _ & _).
  split; [exact H1|exact H2].
Defined.

(** Three requests: two for [/a/b], answered 200 and 500, and one for
    [/nowhere], answered 404. *)
Lemma keys_are_slugs_of_served_witness :
  let reqs :=
    [mkServed "/a/b" 3 [CallWriteHeader 200; CallWrite "ok"];
     mkServed "/nowhere" 1 [CallWriteHeader 404; CallWrite "Not Found"];
     mkServed "/a/b" 5 [CallWriteHeader 500; CallWrite "boom"]]%string in
  let fresh := sample.mkRecorder 0 EmptyString in
  (exists r, In r reqs /\ "a_b"%string = pathSlug (servedPath r) /\
             servedStatus (RW := sample.recorderWriter) fresh r <> 404) /\
  "a_b"%string <> EmptyString /\
  strings.mentions "/" "a_b" = false /\ strings.mentions "." "a_b" = false.
Proof.
  intros reqs fresh.
  apply (keys_are_slugs_of_served (SL := sample.tally) (RW := sample.recorderWriter)
           fresh reqs "a_b").
  left. eexists. vm_compute. reflexivity.
Defined.

Lemma entries_never_removed_witness :
  let reqs := [mkServed "/nowhere" 1 [CallWriteHeader 404; CallWrite "Not Found"]]%string in
  let fresh := sample.mkRecorder 0 EmptyString in
  let stats :=
    serveAll (SL := sample.tally) (RW := sample.recorderWriter) newRequestStats fresh
      [mkServed "/a/b" 3 [CallWriteHeader 200; CallWrite "ok"]]%string in
  is_Some (responseCounts
             (serveAll (SL := sample.tally) (RW := sample.recorderWriter)
                stats fresh reqs) !! "a_b"%string) /\
  is_Some (counterAt
             (serveAll (SL := sample.tally) (RW := sample.recorderWriter)
                stats fresh reqs) "a_b" 200).
Proof.
  intros reqs fresh stats.
  destruct (entries_never_removed (SL := sample.tally) (RW := sample.recorderWriter)
              stats fresh reqs "a_b") as (H1 & _ & _ & H4).
  split.
  - apply H1. eexists. vm_compute. reflexivity.
  - apply H4. eexists. vm_compute. reflexivity.
Defined.

Lemma errBody_is_last_chunk_witness :
  errBody
    (runTraced (RW := sample.recorderWriter)
       (mkTracing (sample.mkRecorder 500 EmptyString) EmptyString)
       (map CallWrite ["first, "; "second"]%string))
  = "second"%string.
Proof.
  apply (errBody_is_last_chunk (RW := sample.recorderWriter)).
  - intros w c Hw. cbn in *. destruct (sample.status w =? 0) eqn:H0; [|reflexivity].
    apply Z.eqb_eq in H0. lia.
  - cbn. lia.
  - reflexivity.
Defined.


End MoreRuns.
